(** * alx_travel_app: booking validation, status transitions and payment
    reconciliation

    A shallow embedding of the booking and payment logic of the repository:

    - [Models]       alx_travel_app/alx_travel_app/listings/models.py
    - [Views]        alx_travel_app/alx_travel_app/listings/views.py
    - [Serializers]  listings/serializers.py
    - [Payments]     listings/views.py

    Conventions.  A [datetime.date] is its proleptic ordinal in [Z], so that
    [(d2 - d1).days] is the subtraction [d2 - d1].  A [Decimal] with two
    places is counted in hundredths, in [Z].  A status is the string the
    source stores.  A database table is the list of its rows, oldest first. *)

From Stdlib Require Import ZArith List Ascii String Bool Lia DecimalString.
Import ListNotations.

Local Open Scope string_scope.
Local Open Scope Z_scope.

(** ** The object manager *)

Module Orm.

(** [Model.objects.get] answers with the single row that matches the
    keyword filters, or raises one of two exceptions. *)
Inductive lookup (A : Type) : Type :=
| Found (row : A)
| DoesNotExist
| MultipleObjectsReturned.

Arguments Found {A} row.
Arguments DoesNotExist {A}.
Arguments MultipleObjectsReturned {A}.

Definition objects_get {A : Type} (kwargs : A -> bool) (rows : list A)
  : lookup A :=
  match filter kwargs rows with
  | [] => DoesNotExist
  | [row] => Found row
  | _ :: _ :: _ => MultipleObjectsReturned
  end.

(** [queryset.exists()] *)
Definition exists_ {A : Type} (queryset : list A) : bool :=
  match queryset with
  | [] => false
  | _ :: _ => true
  end.

(** [queryset.exclude] with keyword filters *)
Definition exclude {A : Type} (kwargs : A -> bool) (queryset : list A)
  : list A :=
  filter (fun row => negb (kwargs row)) queryset.

(** [value in [c1, c2, ...]] on strings *)
Definition str_in (value : string) (choices : list string) : bool :=
  existsb (String.eqb value) choices.

End Orm.

(** ** Python's [str] methods

    A character is a code point below 256. *)

Module Str.

Definition ord (c : Ascii.ascii) : Z := Z.of_N (Ascii.N_of_ascii c).

Definition chr (n : Z) : Ascii.ascii := Ascii.ascii_of_N (Z.to_N n).

(** [c.isspace()]: the controls 9 to 13 and 28 to 31, the space, NEL and
    the no-break space. *)
Definition isspace (c : Ascii.ascii) : bool :=
  let n := ord c in
  ((9 <=? n) && (n <=? 13)) || ((28 <=? n) && (n <=? 32))
  || (n =? 133) || (n =? 160).

(** [s.lstrip()] *)
Fixpoint lstrip (s : string) : string :=
  match s with
  | EmptyString => EmptyString
  | String c rest => if isspace c then lstrip rest else s
  end.

(** [s.rstrip()] *)
Fixpoint rstrip (s : string) : string :=
  match s with
  | EmptyString => EmptyString
  | String c rest =>
      match rstrip rest with
      | EmptyString => if isspace c then EmptyString else String c EmptyString
      | kept => String c kept
      end
  end.

(** [s.strip()] *)
Definition strip (s : string) : string := rstrip (lstrip s).

(** [len(s)] *)
Definition len (s : string) : Z := Z.of_nat (String.length s).

(** [c.lower()]: the capitals A to Z and the accented capitals 192 to 222,
    the multiplication sign 215 apart, move up by 32. *)
Definition lower_char (c : Ascii.ascii) : Ascii.ascii :=
  let n := ord c in
  if ((65 <=? n) && (n <=? 90))
     || ((192 <=? n) && (n <=? 222) && negb (n =? 215))
  then chr (n + 32) else c.

(** [s.lower()] *)
Fixpoint lower (s : string) : string :=
  match s with
  | EmptyString => EmptyString
  | String c rest => String (lower_char c) (lower rest)
  end.

(** [s.split(sep)] for a separator of one character. *)
Fixpoint split (sep : Ascii.ascii) (s : string) : list string :=
  match s with
  | EmptyString => [EmptyString]
  | String c rest =>
      if Ascii.eqb c sep then EmptyString :: split sep rest
      else match split sep rest with
           | piece :: pieces => String c piece :: pieces
           | [] => [String c EmptyString]
           end
  end.

(** [bool(s)]: a string is true unless it is empty. *)
Definition truthy (s : string) : bool :=
  match s with
  | EmptyString => false
  | String _ _ => true
  end.

End Str.

(** ** alx_travel_app/alx_travel_app/listings/models.py *)

Module Models.
Import Orm.

(** [str(n)] of an integer *)
Definition str (n : Z) : string := NilZero.string_of_int (Z.to_int n).

Record User : Type := mkUser {
  u_id : Z;
  u_is_staff : bool
}.

(** [user1 != user2] on model instances compares primary keys. *)
Definition user_ne (u1 u2 : User) : bool := negb (u_id u1 =? u_id u2).

Record Listing : Type := mkListing {
  l_id : Z;
  l_price_per_night : Z;
  l_max_guests : Z;
  l_is_available : bool;
  l_host : User
}.

Record Booking : Type := mkBooking {
  b_id : Z;
  b_listing : Listing;
  b_guest : User;
  check_in_date : Z;
  check_out_date : Z;
  number_of_guests : Z;
  total_price : Z;
  status : string
}.

(** [Booking.STATUS_CHOICES] *)
Definition STATUS_CHOICES : list (string * string) :=
  [("pending", "Pending"); ("confirmed", "Confirmed");
   ("cancelled", "Cancelled"); ("completed", "Completed")].

(** [Booking.duration_nights] *)
Definition duration_nights (self : Booking) : Z :=
  check_out_date self - check_in_date self.

(** The two messages of [Booking.clean], under the names the
    specification gives the errors. *)
Definition InvalidDateRange : string :=
  "Check-out date must be after check-in date.".
Definition CapacityExceeded (max_guests : Z) : string :=
  ("Number of guests exceeds maximum allowed (" ++ str max_guests ++ ").")
  %string.

(** [Booking.clean]: [inr message] when it raises [ValidationError]. *)
Definition clean (self : Booking) : unit + string :=
  if check_in_date self >=? check_out_date self
  then inr InvalidDateRange
  else if number_of_guests self >? l_max_guests (b_listing self)
  then inr (CapacityExceeded (l_max_guests (b_listing self)))
  else inl tt.

Definition set_status (b : Booking) (s : string) : Booking :=
  mkBooking (b_id b) (b_listing b) (b_guest b) (check_in_date b)
            (check_out_date b) (number_of_guests b) (total_price b) s.

(** [booking.save()] on a stored row: the row with its primary key is
    overwritten. *)
Definition save (b : Booking) (rows : list Booking) : list Booking :=
  map (fun row => if b_id row =? b_id b then b else row) rows.

(** [Listing.amenities_list], read off the [amenities] text of the
    listing. *)
Definition amenities_list (amenities : string) : list string :=
  map Str.strip
      (filter (fun amenity => Str.truthy (Str.strip amenity))
              (Str.split ","%char amenities)).

End Models.

(** ** alx_travel_app/alx_travel_app/listings/views.py *)

Module Views.
Import Orm Models.

Inductive Body : Type :=
| Error (message : string)
| Data (booking : Booking).

Record Response : Type := mkResponse {
  body : Body;
  status_code : Z
}.

Definition HTTP_200_OK : Z := 200.
Definition HTTP_403_FORBIDDEN : Z := 403.
Definition HTTP_404_NOT_FOUND : Z := 404.

(** [BookingViewSet.get_queryset] *)
Definition get_queryset (user : User) (Booking_objects : list Booking)
  : list Booking :=
  if negb (u_is_staff user)
  then filter (fun b => (u_id (b_guest b) =? u_id user)
                        || (u_id (l_host (b_listing b)) =? u_id user))
              Booking_objects
  else Booking_objects.

(** [self.get_object()]: the row of the queryset with primary key [pk];
    the framework answers 404 when there is none. *)
Definition get_object (user : User) (Booking_objects : list Booking)
    (pk : Z) : lookup Booking :=
  objects_get (fun b => b_id b =? pk) (get_queryset user Booking_objects).

Definition Forbidden_confirm : Response :=
  mkResponse (Error "Only the host can confirm bookings") HTTP_403_FORBIDDEN.
Definition Forbidden_cancel : Response :=
  mkResponse (Error "Only the guest or host can cancel bookings")
             HTTP_403_FORBIDDEN.
Definition NotFound : Response :=
  mkResponse (Error "Not found.") HTTP_404_NOT_FOUND.

(** The answer of an action and the table after it; [None] when the
    lookup raised [MultipleObjectsReturned]. *)
Definition Answer : Type := option Response * list Booking.

(** [BookingViewSet.confirm] *)
Definition confirm (user : User) (Booking_objects : list Booking) (pk : Z)
  : Answer :=
  match get_object user Booking_objects pk with
  | DoesNotExist => (Some NotFound, Booking_objects)
  | MultipleObjectsReturned => (None, Booking_objects)
  | Found booking =>
      if user_ne (l_host (b_listing booking)) user
      then (Some Forbidden_confirm, Booking_objects)
      else
        let booking := set_status booking "confirmed" in
        (Some (mkResponse (Data booking) HTTP_200_OK),
         save booking Booking_objects)
  end.

(** [BookingViewSet.cancel] *)
Definition cancel (user : User) (Booking_objects : list Booking) (pk : Z)
  : Answer :=
  match get_object user Booking_objects pk with
  | DoesNotExist => (Some NotFound, Booking_objects)
  | MultipleObjectsReturned => (None, Booking_objects)
  | Found booking =>
      if user_ne (b_guest booking) user
         && user_ne (l_host (b_listing booking)) user
      then (Some Forbidden_cancel, Booking_objects)
      else
        let booking := set_status booking "cancelled" in
        (Some (mkResponse (Data booking) HTTP_200_OK),
         save booking Booking_objects)
  end.

(** The query parameters [ListingViewSet.get_queryset] reads; [None] for a
    parameter that is not in the query string. *)
Record QueryParams : Type := mkQueryParams {
  qp_is_available : option string;
  qp_min_price : option string;
  qp_max_price : option string;
  qp_guests : option string
}.

Section ListingViewSet.

(** The object manager's reading of a text as a decimal, in hundredths, or
    as an integer; [None] when it raises. *)
Variable to_decimal : string -> option Z.
Variable to_int : string -> option Z.

(** One [if param is not None: queryset = queryset.filter(...)] step whose
    value the object manager has to read first. *)
Definition filter_param (param : option string)
    (read : string -> option Z) (keep : Z -> Listing -> bool)
    (queryset : option (list Listing)) : option (list Listing) :=
  match queryset, param with
  | None, _ => None
  | Some rows, None => Some rows
  | Some rows, Some text =>
      match read text with
      | None => None
      | Some value => Some (filter (keep value) rows)
      end
  end.

(** [ListingViewSet.get_queryset]; [None] when a filter raises. *)
Definition Listing_get_queryset (query_params : QueryParams)
    (Listing_objects : list Listing) : option (list Listing) :=
  let queryset := Listing_objects in
  let queryset :=
    match qp_is_available query_params with
    | Some is_available =>
        filter (fun l => Bool.eqb (l_is_available l)
                           (String.eqb (Str.lower is_available) "true"))
               queryset
    | None => queryset
    end in
  let queryset := Some queryset in
  let queryset :=
    filter_param (qp_min_price query_params) to_decimal
      (fun min_price l => l_price_per_night l >=? min_price) queryset in
  let queryset :=
    filter_param (qp_max_price query_params) to_decimal
      (fun max_price l => l_price_per_night l <=? max_price) queryset in
  let queryset :=
    filter_param (qp_guests query_params) to_int
      (fun guests l => l_max_guests l >=? guests) queryset in
  queryset.

End ListingViewSet.

(** [ListingViewSet.my_listings] *)
Definition my_listings (user : User) (Listing_objects : list Listing)
  : list Listing :=
  filter (fun l => u_id (l_host l) =? u_id user) Listing_objects.

(** The answers of [ListingBookingsView.get]. *)
Inductive ListingBookings : Type :=
| Bookings (rows : list Booking)
| Refused (message : string) (status : Z).

(** [ListingBookingsView.get]; [None] when the lookup raised
    [MultipleObjectsReturned].  The rows are the listing's bookings; the
    order the model gives them (latest first) is not part of the model. *)
Definition ListingBookingsView_get (user : User)
    (Listing_objects : list Listing) (Booking_objects : list Booking)
    (listing_id : Z) : option ListingBookings :=
  match objects_get (fun l => l_id l =? listing_id) Listing_objects with
  | DoesNotExist => Some (Refused "Listing not found" HTTP_404_NOT_FOUND)
  | MultipleObjectsReturned => None
  | Found listing =>
      if user_ne (l_host listing) user
      then Some (Refused "Only the host can view bookings for this listing"
                         HTTP_403_FORBIDDEN)
      else Some (Bookings
                   (filter (fun b => l_id (b_listing b) =? l_id listing)
                           Booking_objects))
  end.

End Views.

(** ** alx_travel_app/alx_travel_app/listings/tasks.py *)

Module Tasks.

(** How one run of a task ends. *)
Inductive Run : Type :=
| Done (result : string)
| Retry (countdown max_retries : Z)
| Failed.

(** One run of [send_booking_confirmation_email].  [sent] tells whether the
    body of the [try] went through; [retries] is [self.request.retries].
    [self.retry] asks for another run unless the runs already retried
    have used up [max_retries], in which case the exception is raised. *)
Definition send_booking_confirmation_email (sent : bool) (retries : Z)
    (user_email : string) : Run :=
  if sent
  then Done ("Email sent successfully to " ++ user_email)%string
  else if retries + 1 >? 3 then Failed
  else Retry 60 3.

(** One run of [send_booking_reminder_email]: the exception is raised
    again, no retry is asked for. *)
Definition send_booking_reminder_email (sent : bool) (user_email : string)
  : Run :=
  if sent
  then Done ("Reminder email sent successfully to " ++ user_email)%string
  else Failed.

(** The worker: the task is run again after each [Retry], with one more
    retry counted; [deliveries n] tells whether the [n]th run sends.  The
    result comes with the number of runs. *)
Fixpoint work (fuel : nat) (deliveries : Z -> bool) (retries : Z)
    (user_email : string) : option (Run * Z) :=
  match fuel with
  | O => None
  | S fuel =>
      match send_booking_confirmation_email (deliveries retries) retries
              user_email with
      | Retry _ _ => work fuel deliveries (retries + 1) user_email
      | ended => Some (ended, retries + 1)
      end
  end.

End Tasks.

(** ** listings/serializers.py *)

Module Serializers.
Import Orm.

(** The rows the serializers read.  [listings/models.py] of this
    application is not among the sources; the records carry the fields
    the serializers name. *)
Record Listing : Type := mkListing {
  l_id : Z;
  l_price_per_night : Z;
  l_availability : bool
}.

Record Booking : Type := mkBooking {
  b_id : Z;
  b_listing : Listing;
  b_guest : Z;
  b_start_date : Z;
  b_end_date : Z;
  b_total_price : Z;
  b_status : string
}.

Record Database : Type := mkDatabase {
  Listing_objects : list Listing;
  Booking_objects : list Booking
}.

(** The attribute dictionary handed to [validate], [create] and [update];
    an absent key is [None], as [dict.get] reads it. *)
Record Attrs : Type := mkAttrs {
  start_date : option Z;
  end_date : option Z;
  listing_id : option Z
}.

(** What a validation hook does: returns a value, raises
    [serializers.ValidationError(message)], or lets another exception
    through. *)
Inductive validated (A : Type) : Type :=
| Valid (value : A)
| ValidationError (message : string)
| Uncaught (exception : string).

Arguments Valid {A} value.
Arguments ValidationError {A} message.
Arguments Uncaught {A} exception.

(** The messages, under the names the specification gives the errors. *)
Definition InvalidDateRange : string := "End date must be after start date.".
Definition RangeTooLong : string := "Booking cannot exceed 365 days.".
Definition ListingUnavailable : string :=
  "This listing is not available for booking.".
Definition DateConflict : string :=
  "This listing is already booked for the selected dates.".
Definition InvalidListing : string := "Invalid listing ID.".
Definition StartInPast : string := "Start date cannot be in the past.".
Definition EndInPast : string := "End date cannot be in the past.".

(** [BookingSerializer.validate_start_date]; [today] is
    [timezone.now().date()]. *)
Definition validate_start_date (today value : Z) : validated Z :=
  if value <? today then ValidationError StartInPast else Valid value.

(** [BookingSerializer.validate_end_date] *)
Definition validate_end_date (today value : Z) : validated Z :=
  if value <? today then ValidationError EndInPast else Valid value.

(** The date-range part of [validate]: [Some message] when it raises. *)
Definition validate_date_range (data : Attrs) : option string :=
  match start_date data, end_date data with
  | Some s, Some e =>
      if s >=? e then Some InvalidDateRange
      else if e - s >? 365 then Some RangeTooLong
      else None
  | _, _ => None
  end.

(** The queryset of [validate]:
    [Booking.objects.filter(listing=listing,
       status__in=['confirmed', 'pending'],
       start_date__lt=end_date, end_date__gt=start_date)]. *)
Definition conflicting_filter (listing : Listing) (s e : Z) (b : Booking)
  : bool :=
  (l_id (b_listing b) =? l_id listing)
  && str_in (b_status b) ["confirmed"; "pending"]
  && (b_start_date b <? e)
  && (b_end_date b >? s).

Definition conflicting_bookings (db : Database) (instance : option Booking)
    (listing : Listing) (s e : Z) : list Booking :=
  let conflicting := filter (conflicting_filter listing s e)
                            (Booking_objects db) in
  match instance with
  | Some current => exclude (fun b => b_id b =? b_id current) conflicting
  | None => conflicting
  end.

(** [BookingSerializer.validate]; [instance] is [self.instance]. *)
Definition validate (db : Database) (instance : option Booking)
    (data : Attrs) : validated Attrs :=
  match validate_date_range data with
  | Some message => ValidationError message
  | None =>
      match listing_id data with
      | None => Valid data
      | Some lid =>
          if lid =? 0 then Valid data
          else
            match objects_get (fun l => l_id l =? lid)
                              (Listing_objects db) with
            | DoesNotExist => ValidationError InvalidListing
            | MultipleObjectsReturned =>
                Uncaught "Listing.MultipleObjectsReturned"
            | Found listing =>
                if negb (l_availability listing)
                then ValidationError ListingUnavailable
                else
                  match start_date data, end_date data with
                  | Some s, Some e =>
                      if exists_ (conflicting_bookings db instance
                                                       listing s e)
                      then ValidationError DateConflict
                      else Valid data
                  | _, _ => Valid data
                  end
            end
      end
  end.

(** The serializer runs the field hooks on the fields that are present
    and reaches [validate] only when none of them raised; the first
    message stands for the collected field errors. *)
Definition run_validation (today : Z) (db : Database)
    (instance : option Booking) (data : Attrs) : validated Attrs :=
  let on_field (hook : Z -> validated Z) (field : option Z)
      : option string :=
    match field with
    | None => None
    | Some value =>
        match hook value with
        | ValidationError message => Some message
        | _ => None
        end
    end in
  match on_field (validate_start_date today) (start_date data),
        on_field (validate_end_date today) (end_date data) with
  | Some message, _ => ValidationError message
  | None, Some message => ValidationError message
  | None, None => validate db instance data
  end.

(** [(end_date - start_date).days] *)
Definition nights (b : Booking) : Z := b_end_date b - b_start_date b.

Definition set_total_price (b : Booking) (price : Z) : Booking :=
  mkBooking (b_id b) (b_listing b) (b_guest b) (b_start_date b)
            (b_end_date b) price (b_status b).

(** Modelled from the spec: [Booking.calculate_total_price], a method of
    [listings/models.py], which is not among the sources.  The
    specification gives total_price = price_per_night x nights with
    nights = (end - start).days. *)
Definition calculate_total_price (b : Booking) : Booking :=
  set_total_price b (l_price_per_night (b_listing b) * nights b).

Section ModelSerializer.

(** [super().create] and [super().update] belong to the framework; the
    two methods below are read for any behaviour of theirs. *)
Variable super_create : Attrs -> Booking.
Variable super_update : Booking -> Attrs -> Booking.

(** [BookingSerializer.create] *)
Definition create (validated_data : Attrs) : Booking :=
  let booking := super_create validated_data in
  calculate_total_price booking.

(** [BookingSerializer.update] *)
Definition update (instance : Booking) (validated_data : Attrs)
  : Booking :=
  let old_start := b_start_date instance in
  let old_end := b_end_date instance in
  let booking := super_update instance validated_data in
  if negb (b_start_date booking =? old_start)
     || negb (b_end_date booking =? old_end)
  then calculate_total_price booking
  else booking.

End ModelSerializer.

(** [BookingStatusUpdateSerializer.valid_transitions.get(current, [])] *)
Definition valid_transitions (current_status : string) : list string :=
  if String.eqb current_status "pending" then ["confirmed"; "canceled"]
  else if String.eqb current_status "confirmed" then ["canceled"]
  else if String.eqb current_status "canceled" then []
  else [].

(** [BookingStatusUpdateSerializer.validate_status]; [instance] is the
    status of [self.instance] when there is one. *)
Definition validate_status (instance : option string) (value : string)
  : validated string :=
  match instance with
  | Some current_status =>
      if negb (str_in value (valid_transitions current_status))
      then ValidationError
             ("Cannot change status from " ++ current_status ++ " to "
              ++ value ++ ".")%string
      else Valid value
  | None => Valid value
  end.

(** [ListingSerializer.validate_price_per_night] *)
Definition validate_price_per_night (value : Z) : validated Z :=
  if value <=? 0
  then ValidationError "Price per night must be greater than 0."
  else Valid value.

(** [ListingSerializer.validate_title] *)
Definition validate_title (value : string) : validated string :=
  if Str.len (Str.strip value) <? 5
  then ValidationError "Title must be at least 5 characters long."
  else Valid (Str.strip value).

(** [ListingSerializer.validate_description] *)
Definition validate_description (value : string) : validated string :=
  if Str.len (Str.strip value) <? 20
  then ValidationError "Description must be at least 20 characters long."
  else Valid (Str.strip value).

(** A booking that blocks dates: pending or confirmed. *)
Definition active (b : Booking) : Prop :=
  b_status b = "pending" \/ b_status b = "confirmed".

(** No two active bookings of one listing, under different keys, share a
    night. *)
Definition no_double_booking (rows : list Booking) : Prop :=
  forall b1 b2,
    In b1 rows -> In b2 rows -> b_id b1 <> b_id b2 ->
    l_id (b_listing b1) = l_id (b_listing b2) ->
    active b1 -> active b2 ->
    b_end_date b1 <= b_start_date b2 \/ b_end_date b2 <= b_start_date b1.

(** The overlap test in the words of the specification: [b] is a booking
    of the listing, pending or confirmed, with
    [b.start < e] and [b.end > s], other than the booking being
    updated. *)
Definition conflicts_with (instance : option Booking)
    (listing_pk s e : Z) (b : Booking) : Prop :=
  l_id (b_listing b) = listing_pk
  /\ (b_status b = "pending" \/ b_status b = "confirmed")
  /\ b_start_date b < e
  /\ b_end_date b > s
  /\ (forall current, instance = Some current -> b_id b <> b_id current).

(** The price equation of the specification. *)
Definition priced (b : Booking) : Prop :=
  b_total_price b = l_price_per_night (b_listing b) * nights b.

(** ModelSerializer's assignment of the dates that are present, one
    admissible behaviour of [super().update]. *)
Definition assign_dates (instance : Booking) (data : Attrs) : Booking :=
  mkBooking (b_id instance) (b_listing instance) (b_guest instance)
    (match start_date data with Some s => s | None => b_start_date instance
     end)
    (match end_date data with Some e => e | None => b_end_date instance
     end)
    (b_total_price instance) (b_status instance).

(** [booking.listing] once [listing_id] has been assigned: the listing
    stored under that key.  When no single listing carries the key the
    listing at hand is kept; saving raises then, and [validate] has refused
    the request. *)
Definition related_listing (db : Database) (lid : Z) (at_hand : Listing)
  : Listing :=
  match objects_get (fun l => l_id l =? lid) (Listing_objects db) with
  | Found listing => listing
  | _ => at_hand
  end.

(** The framework's [ModelSerializer.update]: every key of
    [validated_data] is assigned to the instance, which is then saved;
    what [validated_data] does not name stays as it is. *)
Definition ModelSerializer_update (db : Database) (instance : Booking)
    (validated_data : Attrs) : Booking :=
  mkBooking (b_id instance)
    (match listing_id validated_data with
     | Some lid => related_listing db lid (b_listing instance)
     | None => b_listing instance
     end)
    (b_guest instance)
    (match start_date validated_data with
     | Some s => s
     | None => b_start_date instance
     end)
    (match end_date validated_data with
     | Some e => e
     | None => b_end_date instance
     end)
    (b_total_price instance) (b_status instance).

(** The framework's [ModelSerializer.create]: [Booking.objects.create]
    with the keys of [validated_data]; [blank] carries what a new row gets
    otherwise (its key, the guest, the defaults of the model). *)
Definition ModelSerializer_create (db : Database) (blank : Booking)
    (validated_data : Attrs) : Booking :=
  ModelSerializer_update db blank validated_data.

End Serializers.

(** ** listings/views.py *)

Module Payments.
Import Orm.

Definition str (n : Z) : string := NilZero.string_of_int (Z.to_int n).

Record User : Type := mkUser {
  u_id : Z;
  u_email : string;
  u_first_name : string;
  u_last_name : string
}.

(** The rows the two views read and write.  [listings/models.py] of this
    application is not among the sources; the records carry the fields
    the views name. *)
Record Booking : Type := mkBooking {
  b_id : Z;
  b_user : Z;
  b_total_price : Z
}.

(** Modelled from the spec: the Payment model of [listings/models.py],
    which is not among the sources.  A Payment holds a one-to-one
    reference to its Booking, which makes [hasattr(booking, 'payment')]
    the question whether a Payment row refers to the booking. *)
Record Payment : Type := mkPayment {
  p_id : Z;
  p_booking : Z;
  p_amount : Z;
  p_transaction_id : string;
  p_status : string
}.

(** A task handed to the queue by [task.delay(args)]. *)
Inductive Task : Type :=
| send_booking_confirmation (booking_id : Z).

Record Database : Type := mkDatabase {
  Booking_objects : list Booking;
  Payment_objects : list Payment;
  queue : list Task
}.

Record Settings : Type := mkSettings {
  CHAPA_SECRET_KEY : string;
  CHAPA_BASE_URL : string;
  BASE_URL : string;
  FRONTEND_URL : string
}.

(** *** The gateway, reached through [requests] *)

Record Payload : Type := mkPayload {
  amount : string;
  currency : string;
  email : string;
  first_name : string;
  last_name : string;
  tx_ref : string;
  callback_url : string;
  return_url : string;
  customization : list (string * string)
}.

(** The parts of [response.json()] the views read; [None] for a missing
    key. *)
Record Json : Type := mkJson {
  j_status : option string;
  j_data_checkout_url : option string
}.

Inductive Reply : Type :=
| HttpResponse (status_code : Z) (json : Json)
| RequestException.

Record Requests : Type := mkRequests {
  post : string -> list (string * string) -> Payload -> Reply;
  get : string -> list (string * string) -> Reply
}.

(** *** Responses *)

Record Response : Type := mkResponse {
  data : list (string * string);
  status : Z
}.

Definition HTTP_200_OK : Z := 200.
Definition HTTP_400_BAD_REQUEST : Z := 400.
Definition HTTP_404_NOT_FOUND : Z := 404.

(** The error responses, under the names the specification gives them. *)
Definition BookingNotFound : Response :=
  mkResponse [("error", "Booking not found")] HTTP_404_NOT_FOUND.
Definition PaymentAlreadyInitiated : Response :=
  mkResponse [("error", "Payment already initiated for this booking")]
             HTTP_400_BAD_REQUEST.
Definition GatewayError_initiate : Response :=
  mkResponse [("error", "Failed to initiate payment")] HTTP_400_BAD_REQUEST.
Definition PaymentNotFound : Response :=
  mkResponse [("error", "Payment not found")] HTTP_404_NOT_FOUND.
Definition GatewayError_verify : Response :=
  mkResponse [("error", "Failed to verify payment")] HTTP_400_BAD_REQUEST.
Definition PaymentCompleted : Response :=
  mkResponse [("status", "completed");
              ("message", "Payment verified successfully")] HTTP_200_OK.
Definition PaymentFailed : Response :=
  mkResponse [("status", "failed");
              ("message", "Payment verification failed")]
             HTTP_400_BAD_REQUEST.

(** A view returns a response or lets an exception through. *)
Inductive Outcome : Type :=
| Returns (response : Response)
| Raises (exception : string).

(** *** Table operations *)

(** [hasattr(booking, 'payment')] *)
Definition has_payment (db : Database) (booking : Booking) : bool :=
  existsb (fun p => p_booking p =? b_id booking) (Payment_objects db).

(** The key an inserted row receives. *)
Definition next_id (rows : list Payment) : Z :=
  1 + fold_right Z.max 0 (map p_id rows).

(** [Payment.objects.create(booking, amount, transaction_id, status)] *)
Definition Payment_objects_create (db : Database) (booking : Booking)
    (amount : Z) (transaction_id status : string) : Database :=
  let payment := mkPayment (next_id (Payment_objects db)) (b_id booking)
                           amount transaction_id status in
  mkDatabase (Booking_objects db)
             (Payment_objects db ++ [payment])%list
             (queue db).

Definition set_status (p : Payment) (s : string) : Payment :=
  mkPayment (p_id p) (p_booking p) (p_amount p) (p_transaction_id p) s.

(** [payment.save()]: the row with the payment's primary key is
    overwritten. *)
Definition save (payment : Payment) (db : Database) : Database :=
  mkDatabase (Booking_objects db)
             (map (fun row => if p_id row =? p_id payment
                              then payment else row)
                  (Payment_objects db))
             (queue db).

(** [task.delay(args)] *)
Definition delay (task : Task) (db : Database) : Database :=
  mkDatabase (Booking_objects db) (Payment_objects db)
             (queue db ++ [task])%list.

(** [str(amount)] of a [Decimal] with two places, counted in
    hundredths. *)
Definition str_decimal (hundredths : Z) : string :=
  let n := Z.abs hundredths in
  let cents := n mod 100 in
  let sign := if hundredths <? 0 then "-" else "" in
  let pad := if cents <? 10 then "0" else "" in
  (sign ++ str (n / 100) ++ "." ++ pad ++ str cents)%string.

Section Views.

Variable settings : Settings.
Variable requests : Requests.

(** The request of [InitiatePaymentView.post] to the gateway. *)
Definition initialize_url : string :=
  (CHAPA_BASE_URL settings ++ "/transaction/initialize")%string.

Definition initialize_headers : list (string * string) :=
  [("Authorization", ("Bearer " ++ CHAPA_SECRET_KEY settings)%string);
   ("Content-Type", "application/json")].

Definition initialize_payload (user : User) (booking_id amount : Z)
    (tx_ref : string) : Payload :=
  mkPayload (str_decimal amount) "ETB" (u_email user)
    (u_first_name user) (u_last_name user) tx_ref
    (BASE_URL settings ++ "/api/payments/verify/" ++ tx_ref ++ "/")
    %string
    (FRONTEND_URL settings ++ "/booking/" ++ str booking_id ++ "/status")
    %string
    [("title", "ALX Travel App");
     ("description", "Payment for your booking")].

(** The request of [VerifyPaymentView.get] to the gateway. *)
Definition verify_url (tx_ref : string) : string :=
  (CHAPA_BASE_URL settings ++ "/transaction/verify/" ++ tx_ref)%string.

Definition verify_headers : list (string * string) :=
  [("Authorization", ("Bearer " ++ CHAPA_SECRET_KEY settings)%string)].

(** [Booking.objects.get(id=booking_id, user=request.user)] *)
Definition Booking_objects_get (db : Database) (booking_id : Z)
    (user : User) : lookup Booking :=
  objects_get (fun b => (b_id b =? booking_id) && (b_user b =? u_id user))
              (Booking_objects db).

(** [Payment.objects.get(transaction_id=tx_ref)] *)
Definition Payment_objects_get (db : Database) (tx_ref : string)
  : lookup Payment :=
  objects_get (fun p => String.eqb (p_transaction_id p) tx_ref)
              (Payment_objects db).

(** [InitiatePaymentView.post]; [uuid_hex] is [uuid.uuid4().hex]. *)
Definition InitiatePaymentView_post (db : Database) (user : User)
    (booking_id : Z) (uuid_hex : string) : Outcome * Database :=
  match Booking_objects_get db booking_id user with
  | DoesNotExist => (Returns BookingNotFound, db)
  | MultipleObjectsReturned =>
      (Raises "Booking.MultipleObjectsReturned", db)
  | Found booking =>
      if has_payment db booking
      then (Returns PaymentAlreadyInitiated, db)
      else
        let amount := b_total_price booking in
        let tx_ref := ("travel-" ++ uuid_hex)%string in
        match post requests initialize_url initialize_headers
                (initialize_payload user booking_id amount tx_ref) with
        | RequestException => (Raises "requests.RequestException", db)
        | HttpResponse status_code json =>
            if status_code =? 200
            then
              let db := Payment_objects_create db booking amount tx_ref
                                               "pending" in
              match j_data_checkout_url json with
              | Some checkout_url =>
                  (Returns
                     (mkResponse
                        [("checkout_url", checkout_url);
                         ("message", "Payment initiated successfully")]
                        HTTP_200_OK), db)
              | None => (Raises "KeyError", db)
              end
            else (Returns GatewayError_initiate, db)
        end
  end.

(** [VerifyPaymentView.get] *)
Definition VerifyPaymentView_get (db : Database) (tx_ref : string)
  : Outcome * Database :=
  match Payment_objects_get db tx_ref with
  | DoesNotExist => (Returns PaymentNotFound, db)
  | MultipleObjectsReturned =>
      (Raises "Payment.MultipleObjectsReturned", db)
  | Found payment =>
      match get requests (verify_url tx_ref) verify_headers with
      | RequestException => (Raises "requests.RequestException", db)
      | HttpResponse status_code json =>
          if status_code =? 200
          then
            match j_status json with
            | None => (Raises "KeyError", db)
            | Some s =>
                if String.eqb s "success"
                then
                  let payment := set_status payment "completed" in
                  let db := save payment db in
                  let db := delay (send_booking_confirmation
                                     (p_booking payment)) db in
                  (Returns PaymentCompleted, db)
                else
                  let payment := set_status payment "failed" in
                  let db := save payment db in
                  (Returns PaymentFailed, db)
            end
          else (Returns GatewayError_verify, db)
      end
  end.

End Views.

(** The Payment rows that refer to a booking. *)
Definition payments_of (db : Database) (booking_id : Z) : list Payment :=
  filter (fun p => p_booking p =? booking_id) (Payment_objects db).

(** At most one Payment per Booking. *)
Definition at_most_one_payment (db : Database) : Prop :=
  forall booking_id, (List.length (payments_of db booking_id) <= 1)%nat.

(** A reply of the gateway other than 200. *)
Definition non_success (reply : Reply) : Prop :=
  exists status_code json,
    reply = HttpResponse status_code json /\ status_code <> 200.

(** The gateway reports the outcome [s] of a transaction. *)
Definition reports (reply : Reply) (s : string) : Prop :=
  exists json, reply = HttpResponse 200 json /\ j_status json = Some s.

(** The primary keys of the Payment table are pairwise distinct. *)
Definition unique_ids (db : Database) : Prop :=
  NoDup (map p_id (Payment_objects db)).

(** The reply the gateway gives to the initiate request for a booking. *)
Definition initialize_reply (settings : Settings) (requests : Requests)
    (user : User) (booking_id : Z) (booking : Booking) (uuid_hex : string)
  : Reply :=
  post requests (initialize_url settings) (initialize_headers settings)
    (initialize_payload settings user booking_id (b_total_price booking)
       ("travel-" ++ uuid_hex)%string).

(** The reply the gateway gives to the verify request for a reference. *)
Definition verify_reply (settings : Settings) (requests : Requests)
    (tx_ref : string) : Reply :=
  get requests (verify_url settings tx_ref) (verify_headers settings).

(** The row [InitiatePaymentView.post] creates. *)
Definition created (db : Database) (booking : Booking) (uuid_hex : string)
  : Payment :=
  mkPayment (next_id (Payment_objects db)) (b_id booking)
            (b_total_price booking) ("travel-" ++ uuid_hex)%string "pending".

(** A request to one of the two views. *)
Inductive Call : Type :=
| Initiate (user : User) (booking_id : Z) (uuid_hex : string)
| Verify (tx_ref : string).

Definition serve (settings : Settings) (requests : Requests)
    (db : Database) (call : Call) : Outcome * Database :=
  match call with
  | Initiate user booking_id uuid_hex =>
      InitiatePaymentView_post settings requests db user booking_id
                               uuid_hex
  | Verify tx_ref => VerifyPaymentView_get settings requests db tx_ref
  end.

(** The database after a sequence of requests, served in order. *)
Definition serve_all (settings : Settings) (requests : Requests)
    (db : Database) (calls : list Call) : Database :=
  fold_left (fun db call => snd (serve settings requests db call)) calls db.

End Payments.

(** ** Concrete situations *)

Module Scenario.

(** Dates of June 2024 as ordinals. *)
Definition june_1 : Z := 739038.
Definition june_3 : Z := 739040.
Definition june_4 : Z := 739041.
Definition june_5 : Z := 739042.

Module S.
Import Serializers.

Definition open_listing : Listing := mkListing 1 10000 true.
Definition closed_listing : Listing := mkListing 1 10000 false.

Definition stay (listing : Listing) : Booking :=
  mkBooking 1 listing 7 june_1 june_4 30000 "pending".

Definition open_db : Database :=
  mkDatabase [open_listing] [stay open_listing].
Definition closed_db : Database :=
  mkDatabase [closed_listing] [stay closed_listing].

Definition request : Attrs :=
  mkAttrs (Some june_3) (Some june_5) (Some 1).

Definition new_row (data : Attrs) : Booking :=
  assign_dates (mkBooking 2 open_listing 8 0 0 0 "pending") data.
End S.

Module M.
Import Models.

Definition host : User := mkUser 1 false.
Definition guest : User := mkUser 2 false.
Definition villa : Listing := mkListing 10 10000 4 true host.

Definition cancelled_stay : Booking :=
  mkBooking 5 villa guest june_1 june_4 2 30000 "cancelled".

Definition crowded_backwards : Booking :=
  mkBooking 6 villa guest june_4 june_1 6 0 "pending".
Definition crowded : Booking :=
  mkBooking 6 villa guest june_1 june_4 6 0 "pending".
End M.

Module P.
Import Payments.

Definition settings : Settings :=
  mkSettings "secret" "https://api.chapa.co/v1" "https://travel.example"
             "https://app.example".

Definition payer : User := mkUser 7 "a@example.com" "Abeba" "Kebede".
Definition stranger : User := mkUser 8 "b@example.com" "Biruk" "Tesfaye".

Definition booking : Booking := mkBooking 1 7 30000.

Definition payment (status : string) : Payment :=
  mkPayment 1 1 30000 "travel-abc" status.

Definition db (status : string) : Database :=
  mkDatabase [booking] [payment status] [].

Definition unpaid_db : Database := mkDatabase [booking] [] [].

(** A gateway that settles every transaction. *)
Definition settling : Requests :=
  mkRequests
    (fun _ _ _ => HttpResponse 200
                    (mkJson (Some "success") (Some "https://checkout")))
    (fun _ _ => HttpResponse 200 (mkJson (Some "success") None)).

(** A gateway that reports every transaction as failed. *)
Definition declining : Requests :=
  mkRequests
    (fun _ _ _ => HttpResponse 200
                    (mkJson (Some "success") (Some "https://checkout")))
    (fun _ _ => HttpResponse 200 (mkJson (Some "failed") None)).

(** A gateway that answers 502 to every request. *)
Definition unreachable : Requests :=
  mkRequests (fun _ _ _ => HttpResponse 502 (mkJson None None))
             (fun _ _ => HttpResponse 502 (mkJson None None)).
End P.

End Scenario.

(** ** Further situations *)

Module Cases.

Module S.
Import Serializers.

(** A request for the night after the stay of June 1 to June 4. *)
Definition next_request : Attrs :=
  mkAttrs (Some Scenario.june_4) (Some Scenario.june_5) (Some 1).

Definition next_stay : Booking :=
  mkBooking 2 Scenario.S.open_listing 8 Scenario.june_4 Scenario.june_5
            10000 "pending".

(** A partial update that moves only the start of a stay, to June 1. *)
Definition start_only : Attrs :=
  mkAttrs (Some Scenario.june_1) None (Some 1).

(** A dearer listing beside the first, and the stay of June 1 to June 4
    sent again with the same dates for the dearer listing. *)
Definition suite : Listing := mkListing 2 25000 true.

Definition two_listings : Database :=
  mkDatabase [Scenario.S.open_listing; suite]
             [Scenario.S.stay Scenario.S.open_listing].

Definition same_dates_in_suite : Attrs :=
  mkAttrs (Some Scenario.june_1) (Some Scenario.june_4) (Some 2).

(** A new row before its fields are set. *)
Definition blank : Booking :=
  mkBooking 2 Scenario.S.open_listing 8 0 0 0 "pending".

(** A second stay, June 4 to June 5, beside the first. *)
Definition two_stays : Database :=
  mkDatabase [Scenario.S.open_listing]
             [Scenario.S.stay Scenario.S.open_listing; next_stay].
End S.

Module V.
Import Models Views.

Definition cabin : Listing := mkListing 11 8000 2 false Scenario.M.host.

Definition catalogue : list Listing := [Scenario.M.villa; cabin].

(** [?is_available=yes] *)
Definition available_yes : QueryParams :=
  mkQueryParams (Some "yes") None None None.

(** A reading of decimal and integer texts that knows no text. *)
Definition unreadable (text : string) : option Z := None.
End V.

Module P.
Import Payments.

(** A gateway that answers 200 with an empty body. *)
Definition silent : Requests :=
  mkRequests (fun _ _ _ => HttpResponse 200 (mkJson None None))
             (fun _ _ => HttpResponse 200 (mkJson None None)).

(** A second booking, of another user, with its completed payment. *)
Definition other_booking : Booking := mkBooking 2 8 12000.
Definition other_payment : Payment :=
  mkPayment 2 2 12000 "travel-other" "completed".

Definition two_payments : Database :=
  mkDatabase [Scenario.P.booking; other_booking]
             [Scenario.P.payment "pending"; other_payment] [].
End P.

End Cases.

(** * Properties *)

(** ** Lookups *)

Section OrmFacts.
Import Orm.
Context {A : Type}.
Variable kwargs : A -> bool.

Lemma objects_get_Found_filter (rows : list A) (row : A) :
  objects_get kwargs rows = Found row -> filter kwargs rows = [row].
Proof.
  unfold objects_get.
  destruct (filter kwargs rows) as [|r [|r' rest]]; intro H;
    try discriminate.
  now inversion H.
Qed.

Lemma objects_get_Found_In (rows : list A) (row : A) :
  objects_get kwargs rows = Found row -> In row rows /\ kwargs row = true.
Proof.
  intro H. apply objects_get_Found_filter in H.
  apply filter_In. rewrite H. now left.
Qed.

Lemma objects_get_Found_unique (rows : list A) (row other : A) :
  objects_get kwargs rows = Found row ->
  In other rows -> kwargs other = true -> other = row.
Proof.
  intros H Hin Hk. apply objects_get_Found_filter in H.
  assert (Hf : In other (filter kwargs rows)) by (apply filter_In; auto).
  rewrite H in Hf. destruct Hf as [Hf | []]. now symmetry.
Qed.

Lemma filter_nil_iff (rows : list A) :
  filter kwargs rows = [] <-> forall row, In row rows -> kwargs row = false.
Proof.
  induction rows as [|r rows IH]; simpl.
  - split; [intros _ row [] | reflexivity].
  - destruct (kwargs r) eqn:Hr.
    + split; [discriminate |].
      intro H. specialize (H r (or_introl eq_refl)). congruence.
    + rewrite IH. split.
      * intros H row [<- | Hin]; auto.
      * intros H row Hin. apply H. now right.
Qed.

Lemma objects_get_DoesNotExist (rows : list A) :
  (forall row, In row rows -> kwargs row = false) ->
  objects_get kwargs rows = DoesNotExist.
Proof.
  intro H. apply filter_nil_iff in H. unfold objects_get. now rewrite H.
Qed.

Lemma exists_true_iff (rows : list A) :
  exists_ rows = true <-> exists row, In row rows.
Proof.
  destruct rows as [|r rows]; simpl.
  - split; [discriminate | intros [row []]].
  - split; [intros _; exists r; now left | reflexivity].
Qed.

Lemma exists_false_iff (rows : list A) :
  exists_ rows = false <-> forall row, ~ In row rows.
Proof.
  destruct rows as [|r rows]; simpl.
  - split; [intros _ row [] | reflexivity].
  - split; [discriminate |].
    intro H. exfalso. apply (H r). now left.
Qed.

End OrmFacts.

Lemma str_in_iff (value : string) (choices : list string) :
  Orm.str_in value choices = true <-> In value choices.
Proof.
  unfold Orm.str_in. rewrite existsb_exists. split.
  - intros [c [Hin Heq]]. apply String.eqb_eq in Heq. now subst.
  - intro Hin. exists value. split; [assumption | apply String.eqb_refl].
Qed.

(** ** Booking validation (listings/serializers.py) *)

Section ValidateFacts.
Import Orm Serializers.

Lemma conflicting_filter_iff (listing : Listing) (s e : Z) (b : Booking) :
  conflicting_filter listing s e b = true <->
  l_id (b_listing b) = l_id listing
  /\ (b_status b = "pending" \/ b_status b = "confirmed")
  /\ b_start_date b < e
  /\ b_end_date b > s.
Proof.
  unfold conflicting_filter.
  rewrite !andb_true_iff, str_in_iff, Z.eqb_eq, Z.ltb_lt, Z.gtb_gt.
  simpl. intuition congruence.
Qed.

Lemma In_conflicting_bookings (db : Database) (instance : option Booking)
    (listing : Listing) (s e : Z) (b : Booking) :
  In b (conflicting_bookings db instance listing s e) <->
  In b (Booking_objects db) /\ conflicts_with instance (l_id listing) s e b.
Proof.
  unfold conflicting_bookings, conflicts_with, exclude.
  destruct instance as [current|].
  - rewrite !filter_In, conflicting_filter_iff, negb_true_iff, Z.eqb_neq.
    split.
    + intros [[Hin H] Hne]. repeat split; try tauto.
      intros c Hc. now inversion Hc; subst.
    + intros [Hin (H1 & H2 & H3 & H4 & H5)]. repeat split; auto.
  - rewrite filter_In, conflicting_filter_iff. split.
    + intros [Hin H]. repeat split; try tauto. discriminate.
    + tauto.
Qed.

(** With both dates and a listing that is found, [validate] comes down to
    four checks in the order of the source. *)
Lemma validate_on_listing (db : Database) (instance : option Booking)
    (data : Attrs) (s e lid : Z) (listing : Listing) :
  start_date data = Some s -> end_date data = Some e ->
  listing_id data = Some lid -> lid <> 0 ->
  objects_get (fun l => l_id l =? lid) (Listing_objects db) = Found listing ->
  validate db instance data =
    if s >=? e then ValidationError InvalidDateRange
    else if e - s >? 365 then ValidationError RangeTooLong
    else if negb (l_availability listing)
    then ValidationError ListingUnavailable
    else if exists_ (conflicting_bookings db instance listing s e)
    then ValidationError DateConflict
    else Valid data.
Proof.
  intros Hs He Hl Hnz Hget.
  unfold validate, validate_date_range. rewrite Hs, He, Hl, Hget.
  apply Z.eqb_neq in Hnz. rewrite Hnz.
  destruct (s >=? e); [reflexivity |].
  destruct (e - s >? 365); reflexivity.
Qed.

End ValidateFacts.

(** C1, as amended.  A request that names both dates and a listing that is
    found, and that overlaps a pending or confirmed booking of that listing
    ([b.start < end] and [b.end > start], the booking under update left
    out), is never accepted; it fails with DateConflict when the checks
    that run before the scan pass, that is when start < end, the span is
    at most 365 days and the listing is available.  Under the same checks
    a request whose only overlapping bookings are the booking under update
    is accepted. *)
Theorem validate_date_conflict :
  forall (db : Serializers.Database) (instance : option Serializers.Booking)
         (data : Serializers.Attrs) (s e lid : Z)
         (listing : Serializers.Listing),
    Serializers.start_date data = Some s ->
    Serializers.end_date data = Some e ->
    Serializers.listing_id data = Some lid -> lid <> 0 ->
    Orm.objects_get (fun l => Serializers.l_id l =? lid)
                    (Serializers.Listing_objects db) = Orm.Found listing ->
    ((exists b, In b (Serializers.Booking_objects db)
                /\ Serializers.conflicts_with instance lid s e b) ->
     (exists message,
        Serializers.validate db instance data
        = Serializers.ValidationError message)
     /\ (s < e -> e - s <= 365 -> Serializers.l_availability listing = true ->
         Serializers.validate db instance data
         = Serializers.ValidationError Serializers.DateConflict))
    /\ ((forall b, In b (Serializers.Booking_objects db) ->
                   ~ Serializers.conflicts_with None lid s e b
                   \/ (exists current, instance = Some current
                                       /\ Serializers.b_id b
                                          = Serializers.b_id current)) ->
        s < e -> e - s <= 365 -> Serializers.l_availability listing = true ->
        Serializers.validate db instance data = Serializers.Valid data).
Proof.
  intros db instance data s e lid listing Hs He Hl Hnz Hget.
  pose proof (validate_on_listing db instance data s e lid listing
                Hs He Hl Hnz Hget) as Hv.
  assert (Hid : Serializers.l_id listing = lid).
  { apply objects_get_Found_In in Hget. destruct Hget as [_ Hk].
    now apply Z.eqb_eq in Hk. }
  split.
  - intros [b [Hin Hc]].
    assert (Hex : Orm.exists_
                    (Serializers.conflicting_bookings db instance listing s e)
                  = true).
    { apply exists_true_iff. exists b. apply In_conflicting_bookings.
      rewrite Hid. now split. }
    rewrite Hex in Hv. split.
    + rewrite Hv.
      destruct (s >=? e); [eauto |].
      destruct (e - s >? 365); [eauto |].
      destruct (negb (Serializers.l_availability listing)); eauto.
    + intros Hlt Hspan Hav. rewrite Hv.
      destruct (Z.geb_spec s e); [lia |].
      destruct (Z.gtb_spec (e - s) 365); [lia |].
      now rewrite Hav.
  - intros Hnone Hlt Hspan Hav. rewrite Hv.
    destruct (Z.geb_spec s e); [lia |].
    destruct (Z.gtb_spec (e - s) 365); [lia |].
    rewrite Hav. simpl.
    assert (Hex : Orm.exists_
                    (Serializers.conflicting_bookings db instance listing s e)
                  = false).
    { apply exists_false_iff. intros b Hb.
      apply In_conflicting_bookings in Hb. rewrite Hid in Hb.
      destruct Hb as [Hin (H1 & H2 & H3 & H4 & H5)].
      destruct (Hnone b Hin) as [Hno | [current [Hc Heq]]].
      - apply Hno. repeat split; auto. discriminate.
      - now apply (H5 current). }
    now rewrite Hex.
Qed.

(** The spec's example: a stay of June 1 to June 4 is pending; a request
    for June 3 to June 5 on the same listing fails with DateConflict, and
    the same dates are accepted when the request updates that stay. *)
Lemma validate_date_conflict_witness :
  Serializers.validate Scenario.S.open_db None Scenario.S.request
  = Serializers.ValidationError Serializers.DateConflict
  /\ Serializers.validate Scenario.S.open_db
       (Some (Scenario.S.stay Scenario.S.open_listing)) Scenario.S.request
     = Serializers.Valid Scenario.S.request.
Proof.
  split.
  - destruct (validate_date_conflict Scenario.S.open_db None
                Scenario.S.request Scenario.june_3 Scenario.june_5 1
                Scenario.S.open_listing eq_refl eq_refl eq_refl
                ltac:(discriminate) eq_refl) as [H _].
    destruct H as [_ H].
    + exists (Scenario.S.stay Scenario.S.open_listing). split.
      * simpl. now left.
      * unfold Serializers.conflicts_with. simpl.
        unfold Scenario.june_1, Scenario.june_3, Scenario.june_4,
          Scenario.june_5.
        repeat split; try lia; auto; discriminate.
    + apply H; [unfold Scenario.june_3, Scenario.june_5; lia ..
               | reflexivity].
  - destruct (validate_date_conflict Scenario.S.open_db
                (Some (Scenario.S.stay Scenario.S.open_listing))
                Scenario.S.request Scenario.june_3 Scenario.june_5 1
                Scenario.S.open_listing eq_refl eq_refl eq_refl
                ltac:(discriminate) eq_refl) as [_ H].
    apply H; [| unfold Scenario.june_3, Scenario.june_5; lia ..
              | reflexivity].
    intros b [<- | []]. right.
    exists (Scenario.S.stay Scenario.S.open_listing). now split.
Defined.

(** C1 as stated fails where an earlier check fires.  A pending stay of
    June 1 to June 4 overlaps each of three requests, and none of them
    fails with DateConflict: June 3 to June 5 on a listing that is closed
    for booking fails with ListingUnavailable; June 3 to June 3 fails with
    InvalidDateRange; June 3 to a day 400 days later fails with
    RangeTooLong. *)
Lemma validate_overlap_on_closed_listing :
  (exists b, In b (Serializers.Booking_objects Scenario.S.closed_db)
             /\ Serializers.conflicts_with None 1 Scenario.june_3
                  Scenario.june_5 b)
  /\ Serializers.validate Scenario.S.closed_db None Scenario.S.request
     = Serializers.ValidationError Serializers.ListingUnavailable
  /\ Serializers.validate Scenario.S.closed_db None Scenario.S.request
     <> Serializers.ValidationError Serializers.DateConflict
  /\ (exists b, In b (Serializers.Booking_objects Scenario.S.open_db)
                /\ Serializers.conflicts_with None 1 Scenario.june_3
                     Scenario.june_3 b)
  /\ Serializers.validate Scenario.S.open_db None
       (Serializers.mkAttrs (Some Scenario.june_3) (Some Scenario.june_3)
          (Some 1))
     = Serializers.ValidationError Serializers.InvalidDateRange
  /\ (exists b, In b (Serializers.Booking_objects Scenario.S.open_db)
                /\ Serializers.conflicts_with None 1 Scenario.june_3
                     (Scenario.june_3 + 400) b)
  /\ Serializers.validate Scenario.S.open_db None
       (Serializers.mkAttrs (Some Scenario.june_3)
          (Some (Scenario.june_3 + 400)) (Some 1))
     = Serializers.ValidationError Serializers.RangeTooLong.
Proof.
  assert (Hstay : forall listing e,
             Scenario.june_1 < e ->
             Serializers.conflicts_with None 1 Scenario.june_3 e
               (Scenario.S.stay (Serializers.mkListing 1 10000 listing))).
  { intros listing e He. unfold Serializers.conflicts_with. simpl.
    unfold Scenario.june_3, Scenario.june_4.
    repeat split; try lia; auto; discriminate. }
  repeat split; try discriminate.
  - exists (Scenario.S.stay Scenario.S.closed_listing).
    split; [now left |]. apply Hstay. reflexivity.
  - exists (Scenario.S.stay Scenario.S.open_listing).
    split; [now left |]. apply Hstay. reflexivity.
  - exists (Scenario.S.stay Scenario.S.open_listing).
    split; [now left |]. apply Hstay. reflexivity.
Qed.

(** ** Pricing (listings/serializers.py) *)

Section PriceFacts.
Import Serializers.

Lemma calculate_total_price_priced (b : Booking) :
  priced (calculate_total_price b).
Proof. reflexivity. Qed.

Lemma calculate_total_price_dates (b : Booking) :
  b_start_date (calculate_total_price b) = b_start_date b
  /\ b_end_date (calculate_total_price b) = b_end_date b.
Proof. split; reflexivity. Qed.

(** [update] never touches the dates [super().update] has set. *)
Lemma update_dates (super_update : Booking -> Attrs -> Booking)
    (instance : Booking) (data : Attrs) :
  b_start_date (update super_update instance data)
  = b_start_date (super_update instance data)
  /\ b_end_date (update super_update instance data)
     = b_end_date (super_update instance data).
Proof.
  unfold update.
  destruct (negb (b_start_date (super_update instance data)
                  =? b_start_date instance)
            || negb (b_end_date (super_update instance data)
                     =? b_end_date instance));
    split; reflexivity.
Qed.

(** When no date changed, [update] returns what [super().update]
    returned, price included. *)
Lemma update_same_dates (super_update : Booking -> Attrs -> Booking)
    (instance : Booking) (data : Attrs) :
  b_start_date (super_update instance data) = b_start_date instance ->
  b_end_date (super_update instance data) = b_end_date instance ->
  update super_update instance data = super_update instance data.
Proof.
  intros Hs He. unfold update. rewrite Hs, He, !Z.eqb_refl. reflexivity.
Qed.

End PriceFacts.

(** C2, as amended.  A booking created from a request that names the
    dates and a listing that is found is stored for that listing and those
    dates with total_price = listing.price_per_night x
    (end_date - start_date).days, exactly.  An update, full or partial,
    stores the dates and the listing the request names and keeps the
    others; when the start or the end date has changed the price is
    computed anew, with the same formula on the listing and dates now
    stored; when neither date has changed the price is left as it was,
    also when the listing has changed. *)
Theorem total_price_follows_the_dates :
  forall (db : Serializers.Database) (blank instance : Serializers.Booking)
         (data : Serializers.Attrs),
    (forall s e lid listing,
        Serializers.start_date data = Some s ->
        Serializers.end_date data = Some e ->
        Serializers.listing_id data = Some lid ->
        Orm.objects_get (fun l => Serializers.l_id l =? lid)
                        (Serializers.Listing_objects db)
        = Orm.Found listing ->
        let b := Serializers.create
                   (Serializers.ModelSerializer_create db blank) data in
        Serializers.b_listing b = listing
        /\ Serializers.b_start_date b = s
        /\ Serializers.b_end_date b = e
        /\ Serializers.b_total_price b
           = Serializers.l_price_per_night listing * (e - s))
    /\ (let b := Serializers.update (Serializers.ModelSerializer_update db)
                   instance data in
        Serializers.b_start_date b
        = match Serializers.start_date data with
          | Some s => s
          | None => Serializers.b_start_date instance
          end
        /\ Serializers.b_end_date b
           = match Serializers.end_date data with
             | Some e => e
             | None => Serializers.b_end_date instance
             end
        /\ (forall lid listing,
               Serializers.listing_id data = Some lid ->
               Orm.objects_get (fun l => Serializers.l_id l =? lid)
                               (Serializers.Listing_objects db)
               = Orm.Found listing ->
               Serializers.b_listing b = listing)
        /\ (Serializers.listing_id data = None ->
            Serializers.b_listing b = Serializers.b_listing instance)
        /\ (Serializers.b_start_date b <> Serializers.b_start_date instance
            \/ Serializers.b_end_date b <> Serializers.b_end_date instance ->
            Serializers.b_total_price b
            = Serializers.l_price_per_night (Serializers.b_listing b)
              * (Serializers.b_end_date b - Serializers.b_start_date b))
        /\ (Serializers.b_start_date b = Serializers.b_start_date instance ->
            Serializers.b_end_date b = Serializers.b_end_date instance ->
            Serializers.b_total_price b
            = Serializers.b_total_price instance)).
Proof.
  intros db blank instance data. split.
  - intros s e lid listing Hs He Hl Hget b. subst b.
    unfold Serializers.create, Serializers.ModelSerializer_create,
      Serializers.ModelSerializer_update, Serializers.related_listing,
      Serializers.calculate_total_price, Serializers.nights.
    rewrite Hs, He, Hl, Hget. simpl. repeat split.
  - intro b.
    destruct (update_dates (Serializers.ModelSerializer_update db) instance
                data) as [Hstart Hend].
    fold b in Hstart, Hend.
    assert (Hlisting : Serializers.b_listing b
                       = Serializers.b_listing
                           (Serializers.ModelSerializer_update db instance
                              data)).
    { subst b. unfold Serializers.update.
      destruct (negb _ || negb _); reflexivity. }
    split; [rewrite Hstart; reflexivity |].
    split; [rewrite Hend; reflexivity |].
    split.
    { intros lid listing Hl Hget. rewrite Hlisting.
      unfold Serializers.ModelSerializer_update, Serializers.related_listing.
      simpl. now rewrite Hl, Hget. }
    split.
    { intro Hl. rewrite Hlisting.
      unfold Serializers.ModelSerializer_update. simpl. now rewrite Hl. }
    split.
    + intro Hchanged. rewrite Hstart, Hend in Hchanged.
      assert (Hb : b = Serializers.calculate_total_price
                         (Serializers.ModelSerializer_update db instance
                            data)).
      { subst b. unfold Serializers.update.
        destruct (Z.eqb_spec
                    (Serializers.b_start_date
                       (Serializers.ModelSerializer_update db instance data))
                    (Serializers.b_start_date instance)) as [E1 | N1];
          destruct (Z.eqb_spec
                      (Serializers.b_end_date
                         (Serializers.ModelSerializer_update db instance
                            data))
                      (Serializers.b_end_date instance)) as [E2 | N2];
          simpl; try reflexivity.
        exfalso. destruct Hchanged; contradiction. }
      rewrite Hb. reflexivity.
    + intros Hsame_start Hsame_end. rewrite Hstart in Hsame_start.
      rewrite Hend in Hsame_end.
      assert (Hb : b = Serializers.ModelSerializer_update db instance data)
        by (subst b; now apply update_same_dates).
      rewrite Hb. reflexivity.
Qed.

(** The spec's example: 100.00 a night, June 1 to June 4, three nights,
    300.00; and the stay moved to June 3 to June 5 is priced anew at
    200.00. *)
Lemma total_price_follows_the_dates_witness :
  Serializers.b_total_price
    (Serializers.create
       (Serializers.ModelSerializer_create Scenario.S.open_db Cases.S.blank)
       (Serializers.mkAttrs (Some Scenario.june_1) (Some Scenario.june_4)
          (Some 1)))
  = 30000
  /\ Serializers.b_total_price
       (Serializers.update
          (Serializers.ModelSerializer_update Scenario.S.open_db)
          (Scenario.S.stay Scenario.S.open_listing) Scenario.S.request)
     = 20000.
Proof.
  split.
  - destruct (total_price_follows_the_dates Scenario.S.open_db
                Cases.S.blank Cases.S.blank
                (Serializers.mkAttrs (Some Scenario.june_1)
                   (Some Scenario.june_4) (Some 1))) as [Hc _].
    destruct (Hc Scenario.june_1 Scenario.june_4 1 Scenario.S.open_listing
                eq_refl eq_refl eq_refl eq_refl) as (_ & _ & _ & Hp).
    rewrite Hp. reflexivity.
  - destruct (total_price_follows_the_dates Scenario.S.open_db
                Cases.S.blank (Scenario.S.stay Scenario.S.open_listing)
                Scenario.S.request) as [_ (_ & _ & _ & _ & Hp & _)].
    rewrite Hp; [reflexivity |].
    left. simpl. unfold Scenario.june_1, Scenario.june_3. lia.
Defined.

(** C2 as stated fails on an update that changes the listing and no date.
    The stay of June 1 to June 4, stored at 300.00 for a listing of 100.00
    a night, is sent again with the same dates for a listing of 250.00 a
    night: the request passes validation, the booking is stored for the
    dearer listing, and its total_price is still 300.00, not 750.00. *)
Lemma update_to_dearer_listing_keeps_price :
  Serializers.validate Cases.S.two_listings
    (Some (Scenario.S.stay Scenario.S.open_listing))
    Cases.S.same_dates_in_suite
  = Serializers.Valid Cases.S.same_dates_in_suite
  /\ (let b := Serializers.update
                 (Serializers.ModelSerializer_update Cases.S.two_listings)
                 (Scenario.S.stay Scenario.S.open_listing)
                 Cases.S.same_dates_in_suite in
      Serializers.b_listing b = Cases.S.suite
      /\ Serializers.b_total_price b = 30000
      /\ Serializers.l_price_per_night (Serializers.b_listing b)
         * (Serializers.b_end_date b - Serializers.b_start_date b)
         = 75000
      /\ Serializers.b_total_price b
         <> Serializers.l_price_per_night (Serializers.b_listing b)
            * (Serializers.b_end_date b - Serializers.b_start_date b)).
Proof.
  split; [reflexivity |].
  repeat split. discriminate.
Qed.

(** ** Dates in the past (listings/serializers.py) *)

(** C9.  Each of the two field hooks raises exactly when its date is
    strictly before today, and a request, create or update, that carries
    such a start_date or end_date is rejected with a validation error
    before [validate] is reached. *)
Theorem past_dates_rejected :
  forall (today : Z) (db : Serializers.Database)
         (instance : option Serializers.Booking) (data : Serializers.Attrs),
    (forall value,
        (value < today ->
         Serializers.validate_start_date today value
         = Serializers.ValidationError Serializers.StartInPast
         /\ Serializers.validate_end_date today value
            = Serializers.ValidationError Serializers.EndInPast)
        /\ (today <= value ->
            Serializers.validate_start_date today value
            = Serializers.Valid value
            /\ Serializers.validate_end_date today value
               = Serializers.Valid value))
    /\ ((exists s, Serializers.start_date data = Some s /\ s < today)
        \/ (exists e, Serializers.end_date data = Some e /\ e < today) ->
        Serializers.run_validation today db instance data
        = Serializers.ValidationError Serializers.StartInPast
        \/ Serializers.run_validation today db instance data
           = Serializers.ValidationError Serializers.EndInPast).
Proof.
  intros today db instance data. split.
  - intro value.
    unfold Serializers.validate_start_date, Serializers.validate_end_date.
    destruct (Z.ltb_spec value today); split; intro; try lia; now split.
  - unfold Serializers.run_validation, Serializers.validate_start_date,
      Serializers.validate_end_date.
    intros [[s [Hs Hlt]] | [e [He Hlt]]].
    + rewrite Hs. apply Z.ltb_lt in Hlt. rewrite Hlt. now left.
    + rewrite He. apply Z.ltb_lt in Hlt. rewrite Hlt.
      destruct (Serializers.start_date data) as [s|].
      * destruct (s <? today); [now left | now right].
      * now right.
Qed.

(** Today is June 3: a request that starts on June 1 is rejected. *)
Lemma past_dates_rejected_witness :
  Serializers.run_validation Scenario.june_3 Scenario.S.open_db None
    (Serializers.mkAttrs (Some Scenario.june_1) (Some Scenario.june_5)
       (Some 1))
  = Serializers.ValidationError Serializers.StartInPast.
Proof.
  destruct (past_dates_rejected Scenario.june_3 Scenario.S.open_db None
              (Serializers.mkAttrs (Some Scenario.june_1)
                 (Some Scenario.june_5) (Some 1))) as [_ H].
  destruct H as [H | H].
  - left. exists Scenario.june_1. split; [reflexivity |].
    unfold Scenario.june_1, Scenario.june_3. lia.
  - exact H.
  - discriminate H.
Defined.

(** ** Guest capacity (alx_travel_app/alx_travel_app/listings/models.py) *)

Lemma CapacityExceeded_not_InvalidDateRange (max_guests : Z) :
  Models.CapacityExceeded max_guests <> Models.InvalidDateRange.
Proof. unfold Models.CapacityExceeded. simpl. discriminate. Qed.

(** C8, as amended.  [Booking.clean] fails with CapacityExceeded exactly
    when the dates are in order (check-in before check-out) and
    number_of_guests exceeds listing.max_guests; so with
    number_of_guests <= max_guests it never fails for this reason, and
    with the dates out of order it fails with the date-range error
    whatever the number of guests. *)
Theorem clean_capacity_exceeded :
  forall b : Models.Booking,
    (Models.clean b
     = inr (Models.CapacityExceeded (Models.l_max_guests (Models.b_listing b)))
     <-> Models.check_in_date b < Models.check_out_date b
         /\ Models.number_of_guests b
            > Models.l_max_guests (Models.b_listing b))
    /\ (Models.check_in_date b >= Models.check_out_date b ->
        Models.clean b = inr Models.InvalidDateRange).
Proof.
  intro b. unfold Models.clean.
  destruct (Z.geb_spec (Models.check_in_date b) (Models.check_out_date b))
    as [Hge | Hlt].
  - split; [| reflexivity]. split.
    + intro H. exfalso.
      apply (CapacityExceeded_not_InvalidDateRange
               (Models.l_max_guests (Models.b_listing b))).
      congruence.
    + lia.
  - split; [| lia].
    destruct (Z.gtb_spec (Models.number_of_guests b)
                (Models.l_max_guests (Models.b_listing b))) as [Hgt | Hle].
    + split; [lia | reflexivity].
    + split; [discriminate | lia].
Qed.

(** The spec's example: six guests against a maximum of four, June 1 to
    June 4, fail with CapacityExceeded; with the dates backwards the same
    booking fails with the date-range error. *)
Lemma clean_capacity_exceeded_witness :
  Models.clean Scenario.M.crowded = inr (Models.CapacityExceeded 4)
  /\ Models.clean Scenario.M.crowded_backwards = inr Models.InvalidDateRange.
Proof.
  split.
  - apply (proj1 (clean_capacity_exceeded Scenario.M.crowded)).
    simpl. unfold Scenario.june_1, Scenario.june_4. lia.
  - apply (proj2 (clean_capacity_exceeded Scenario.M.crowded_backwards)).
    simpl. unfold Scenario.june_1, Scenario.june_4. lia.
Defined.

(** C8 as stated fails where the date check fires first: six guests
    against a maximum of four with check-in on June 4 and check-out on
    June 1 fail with the date-range error, not with CapacityExceeded. *)
Lemma clean_six_guests_dates_backwards :
  Models.number_of_guests Scenario.M.crowded_backwards
  > Models.l_max_guests (Models.b_listing Scenario.M.crowded_backwards)
  /\ Models.clean Scenario.M.crowded_backwards = inr Models.InvalidDateRange
  /\ Models.clean Scenario.M.crowded_backwards
     <> inr (Models.CapacityExceeded 4).
Proof.
  split; [simpl; lia | split; [reflexivity | discriminate]].
Qed.

(** ** Status transitions *)

Section TransitionFacts.
Import Orm Models Views.

(** The table of [BookingStatusUpdateSerializer]: with an instance, a
    requested status passes exactly on the three edges. *)
Lemma validate_status_table (current value : string) :
  Serializers.validate_status (Some current) value = Serializers.Valid value
  <-> (current = "pending" /\ (value = "confirmed" \/ value = "canceled"))
      \/ (current = "confirmed" /\ value = "canceled").
Proof.
  unfold Serializers.validate_status, Serializers.valid_transitions.
  destruct (String.eqb_spec current "pending") as [Hp | Hp];
    [| destruct (String.eqb_spec current "confirmed") as [Hc | Hc];
       [| destruct (String.eqb_spec current "canceled") as [Hx | Hx]]];
    subst; unfold str_in; simpl;
    repeat match goal with
      | |- context [String.eqb value ?c] =>
          destruct (String.eqb_spec value c); subst; simpl
      end;
    split; intro H; try discriminate H; try reflexivity;
    try (left; split; [reflexivity | tauto]);
    try (right; split; reflexivity);
    try (exfalso;
         destruct H as [[H1 [H2 | H2]] | [H1 H2]];
         congruence).
Qed.

(** [confirm] never reads the status it overwrites. *)
Lemma confirm_any_status (user : User) (rows : list Booking) (pk : Z)
    (booking : Booking) :
  get_object user rows pk = Found booking ->
  u_id (l_host (b_listing booking)) = u_id user ->
  confirm user rows pk
  = (Some (mkResponse (Data (set_status booking "confirmed")) HTTP_200_OK),
     save (set_status booking "confirmed") rows).
Proof.
  intros Hget Hhost. unfold confirm, user_ne.
  rewrite Hget, Hhost, Z.eqb_refl. reflexivity.
Qed.

(** [cancel] never reads the status it overwrites. *)
Lemma cancel_any_status (user : User) (rows : list Booking) (pk : Z)
    (booking : Booking) :
  get_object user rows pk = Found booking ->
  u_id (b_guest booking) = u_id user
  \/ u_id (l_host (b_listing booking)) = u_id user ->
  cancel user rows pk
  = (Some (mkResponse (Data (set_status booking "cancelled")) HTTP_200_OK),
     save (set_status booking "cancelled") rows).
Proof.
  intros Hget Hwho. unfold cancel, user_ne. rewrite Hget.
  destruct Hwho as [H | H]; rewrite H, Z.eqb_refl; simpl;
    [| rewrite andb_false_r]; reflexivity.
Qed.

End TransitionFacts.

(** C3 at the failing input.  The host confirms a cancelled booking through
    [BookingViewSet.confirm]: the answer is 200 and the stored status is
    confirmed; the guest cancels the cancelled booking through
    [BookingViewSet.cancel]: the answer is 200 as well.  The status
    serializer refuses the same two requests. *)
Theorem confirm_reopens_cancelled_booking :
  Views.confirm Scenario.M.host [Scenario.M.cancelled_stay] 5
  = (Some (Views.mkResponse
             (Views.Data (Models.set_status Scenario.M.cancelled_stay
                            "confirmed"))
             200),
     [Models.set_status Scenario.M.cancelled_stay "confirmed"])
  /\ Views.cancel Scenario.M.guest [Scenario.M.cancelled_stay] 5
     = (Some (Views.mkResponse (Views.Data Scenario.M.cancelled_stay) 200),
        [Scenario.M.cancelled_stay])
  /\ Serializers.validate_status (Some "canceled") "confirmed"
     = Serializers.ValidationError
         "Cannot change status from canceled to confirmed."
  /\ Serializers.validate_status (Some "canceled") "canceled"
     = Serializers.ValidationError
         "Cannot change status from canceled to canceled.".
Proof. repeat split. Qed.

(** ** Payments (listings/views.py) *)

Section PaymentFacts.
Import Orm Payments.

Variable settings : Settings.
Variable requests : Requests.

Lemma has_payment_true_iff (db : Database) (booking : Booking) :
  has_payment db booking = true <->
  exists p, In p (Payment_objects db) /\ p_booking p = b_id booking.
Proof.
  unfold has_payment. rewrite existsb_exists.
  split; intros [p [Hin Hp]]; exists p; split; auto;
    now apply Z.eqb_eq.
Qed.

Lemma has_payment_false_payments_of (db : Database) (booking : Booking) :
  has_payment db booking = false -> payments_of db (b_id booking) = [].
Proof.
  unfold has_payment, payments_of. intro H.
  apply filter_nil_iff. intros p Hin.
  destruct (p_booking p =? b_id booking) eqn:E; [| reflexivity].
  assert (Ht : existsb (fun p => p_booking p =? b_id booking)
                       (Payment_objects db) = true)
    by (apply existsb_exists; eauto).
  congruence.
Qed.

(** After [payment.save()] with a new status, the payment is stored with
    that status and every row under its transaction reference has it. *)
Lemma save_status (db : Database) (tx_ref : string) (payment : Payment)
    (s : string) :
  Payment_objects_get db tx_ref = Found payment ->
  In (set_status payment s)
     (Payment_objects (save (set_status payment s) db))
  /\ (forall row,
         In row (Payment_objects (save (set_status payment s) db)) ->
         p_transaction_id row = tx_ref -> p_status row = s).
Proof.
  intro Hget. unfold Payment_objects_get in Hget.
  destruct (objects_get_Found_In _ _ _ Hget) as [Hin Htx].
  unfold save. simpl. split.
  - apply in_map_iff. exists payment. split; [| assumption].
    now rewrite Z.eqb_refl.
  - intros row Hrow Hrtx. apply in_map_iff in Hrow.
    destruct Hrow as [old [Hold Hin_old]].
    destruct (Z.eqb_spec (p_id old) (p_id payment)) as [Heq | Hne];
      simpl in Hold.
    + now subst row.
    + subst row. exfalso. apply Hne.
      rewrite (objects_get_Found_unique _ _ _ old Hget Hin_old);
        [reflexivity |].
      now apply String.eqb_eq.
Qed.

(** The four ways [VerifyPaymentView.get] ends once the payment is
    found. *)
Lemma verify_found (db : Database) (tx_ref : string) (payment : Payment) :
  Payment_objects_get db tx_ref = Found payment ->
  VerifyPaymentView_get settings requests db tx_ref =
    match get requests (verify_url settings tx_ref)
            (verify_headers settings) with
    | RequestException => (Raises "requests.RequestException", db)
    | HttpResponse status_code json =>
        if status_code =? 200
        then match j_status json with
             | None => (Raises "KeyError", db)
             | Some s =>
                 if String.eqb s "success"
                 then (Returns PaymentCompleted,
                       delay (send_booking_confirmation (p_booking payment))
                             (save (set_status payment "completed") db))
                 else (Returns PaymentFailed,
                       save (set_status payment "failed") db)
             end
        else (Returns GatewayError_verify, db)
    end.
Proof.
  intro Hget. unfold VerifyPaymentView_get. rewrite Hget. reflexivity.
Qed.

(** [InitiatePaymentView.post] creates a row only for a booking without
    one. *)
Lemma initiate_payments (db : Database) (user : User) (booking_id : Z)
    (uuid_hex : string) :
  let db' := snd (InitiatePaymentView_post settings requests db user
                    booking_id uuid_hex) in
  db' = db
  \/ exists booking row,
       has_payment db booking = false
       /\ p_booking row = b_id booking
       /\ p_status row = "pending"
       /\ p_id row = next_id (Payment_objects db)
       /\ db' = mkDatabase (Booking_objects db)
                           (Payment_objects db ++ [row])%list (queue db).
Proof.
  unfold InitiatePaymentView_post.
  destruct (Booking_objects_get db booking_id user) as [booking| |];
    simpl; auto.
  destruct (has_payment db booking) eqn:Hhas; simpl; auto.
  destruct (post requests _ _ _) as [status_code json|]; simpl; auto.
  destruct (status_code =? 200); simpl; auto.
  right. exists booking.
  eexists (mkPayment _ _ _ _ _).
  destruct (j_data_checkout_url json); simpl;
    repeat split; try reflexivity; exact Hhas.
Qed.

End PaymentFacts.

Section PaymentInvariant.
Import Orm Payments.

Variable settings : Settings.
Variable requests : Requests.

Lemma next_id_above (rows : list Payment) (row : Payment) :
  In row rows -> p_id row < next_id rows.
Proof.
  unfold next_id. induction rows as [|r rows IH]; cbn [fold_right map In].
  - intros [].
  - intros [-> | Hin]; [lia |]. specialize (IH Hin). lia.
Qed.

Lemma NoDup_snoc {A : Type} (l : list A) (x : A) :
  NoDup l -> ~ In x l -> NoDup (l ++ [x]).
Proof.
  induction 1 as [|y l Hy Hl IH]; simpl; intro Hx.
  - constructor; [intros [] | constructor].
  - constructor.
    + rewrite in_app_iff. simpl. intros [H | [H | []]]; [tauto |].
      apply Hx. now left.
    + apply IH. intro H. apply Hx. now right.
Qed.

Lemma NoDup_map_eq {A B : Type} (f : A -> B) (l : list A) (x y : A) :
  NoDup (map f l) -> In x l -> In y l -> f x = f y -> x = y.
Proof.
  induction l as [|a l IH]; simpl; [intros _ [] |].
  intros Hnd Hx Hy Hf. inversion Hnd as [|b l' Hnotin Hnd']; subst.
  destruct Hx as [-> | Hx]; destruct Hy as [-> | Hy]; auto.
  - exfalso. apply Hnotin. rewrite Hf. now apply in_map.
  - exfalso. apply Hnotin. rewrite <- Hf. now apply in_map.
Qed.

Lemma filter_map_length {A : Type} (f : A -> bool) (g : A -> A)
    (l : list A) :
  (forall x, In x l -> f (g x) = f x) ->
  List.length (filter f (map g l)) = List.length (filter f l).
Proof.
  induction l as [|a l IH]; simpl; [reflexivity |].
  intro H. rewrite (H a (or_introl eq_refl)).
  destruct (f a); simpl; rewrite IH; auto.
Qed.

(** [InitiatePaymentView.post] keeps both invariants. *)
Lemma initiate_invariant (db : Database) (user : User) (booking_id : Z)
    (uuid_hex : string) :
  unique_ids db -> at_most_one_payment db ->
  let db' := snd (InitiatePaymentView_post settings requests db user
                    booking_id uuid_hex) in
  unique_ids db' /\ at_most_one_payment db'.
Proof.
  intros Hids Hone db'.
  destruct (initiate_payments settings requests db user booking_id
              uuid_hex)
    as [Hsame | (booking & row & Hhas & Hb & _ & Hid & Hnew)];
    fold db' in Hsame || fold db' in Hnew.
  - rewrite Hsame. now split.
  - rewrite Hnew. split.
    + unfold unique_ids. simpl. rewrite map_app. simpl.
      apply NoDup_snoc; [exact Hids |].
      intro Hin. apply in_map_iff in Hin.
      destruct Hin as [old [Hold Hin]].
      apply next_id_above in Hin. lia.
    + intro bid. unfold payments_of. simpl.
      rewrite filter_app, length_app. simpl.
      destruct (Z.eqb_spec (p_booking row) bid) as [Heq | Hne]; simpl.
      * subst bid. rewrite Hb.
        fold (payments_of db (b_id booking)).
        rewrite (has_payment_false_payments_of db booking Hhas).
        simpl. lia.
      * specialize (Hone bid). unfold payments_of in Hone. lia.
Qed.

(** [payment.save()] with a new status keeps the keys and the booking of
    every row. *)
Lemma save_invariant (db : Database) (payment : Payment) (s : string) :
  In payment (Payment_objects db) ->
  unique_ids db -> at_most_one_payment db ->
  unique_ids (save (set_status payment s) db)
  /\ at_most_one_payment (save (set_status payment s) db).
Proof.
  intros Hin Hids Hone. split.
  - unfold unique_ids, save. simpl. rewrite map_map.
    erewrite map_ext; [exact Hids |].
    intro row. simpl.
    destruct (Z.eqb_spec (p_id row) (p_id payment)); simpl; auto.
  - intro bid. unfold payments_of, save. simpl.
    rewrite filter_map_length; [apply Hone |].
    intros row Hrow. simpl.
    destruct (Z.eqb_spec (p_id row) (p_id payment)) as [Heq | Hne];
      [| reflexivity].
    simpl.
    now rewrite (NoDup_map_eq p_id _ row payment Hids Hrow Hin Heq).
Qed.

(** [VerifyPaymentView.get] keeps both invariants. *)
Lemma verify_invariant (db : Database) (tx_ref : string) :
  unique_ids db -> at_most_one_payment db ->
  let db' := snd (VerifyPaymentView_get settings requests db tx_ref) in
  unique_ids db' /\ at_most_one_payment db'.
Proof.
  intros Hids Hone. simpl.
  destruct (Payment_objects_get db tx_ref) as [payment| |] eqn:Hget;
    try (unfold VerifyPaymentView_get; rewrite Hget; simpl; now split).
  rewrite (verify_found settings requests db tx_ref payment Hget).
  assert (Hin : In payment (Payment_objects db)).
  { unfold Payment_objects_get in Hget.
    now apply objects_get_Found_In in Hget. }
  destruct (get requests _ _) as [status_code json|]; simpl;
    [| now split].
  destruct (status_code =? 200); simpl; [| now split].
  destruct (j_status json) as [s|]; simpl; [| now split].
  destruct (String.eqb s "success"); simpl.
  - exact (save_invariant db payment "completed" Hin Hids Hone).
  - exact (save_invariant db payment "failed" Hin Hids Hone).
Qed.

(** No sequence of requests breaks the invariants. *)
Lemma serve_all_invariant (calls : list Call) (db : Database) :
  unique_ids db -> at_most_one_payment db ->
  unique_ids (serve_all settings requests db calls)
  /\ at_most_one_payment (serve_all settings requests db calls).
Proof.
  revert db. induction calls as [|call calls IH]; intros db Hids Hone.
  - now split.
  - simpl. apply IH; destruct call as [user booking_id uuid_hex | tx_ref];
      simpl.
    + apply (initiate_invariant db user booking_id uuid_hex Hids Hone).
    + apply (verify_invariant db tx_ref Hids Hone).
    + apply (initiate_invariant db user booking_id uuid_hex Hids Hone).
    + apply (verify_invariant db tx_ref Hids Hone).
Qed.

End PaymentInvariant.

(** C4, as amended.  [VerifyPaymentView.get] does not read the status it
    overwrites: once the payment is found and the gateway answers 200 with
    a status [s] in the body, every row under the transaction reference,
    the payment included, is stored as completed when [s] is success and
    as failed otherwise, whatever the status was before.  In every other
    case, an answer other than 200, a 200 whose body has no status, a
    request that fails, the database is left exactly as it was. *)
Theorem verify_status_follows_gateway :
  forall (settings : Payments.Settings) (requests : Payments.Requests)
         (db : Payments.Database) (tx_ref : string)
         (payment : Payments.Payment),
    Payments.Payment_objects_get db tx_ref = Orm.Found payment ->
    let reply := Payments.get requests (Payments.verify_url settings tx_ref)
                   (Payments.verify_headers settings) in
    let db' := snd (Payments.VerifyPaymentView_get settings requests db
                      tx_ref) in
    (forall s,
        Payments.reports reply s ->
        let stored := if String.eqb s "success" then "completed"
                      else "failed" in
        In (Payments.set_status payment stored) (Payments.Payment_objects db')
        /\ (forall row,
               In row (Payments.Payment_objects db') ->
               Payments.p_transaction_id row = tx_ref ->
               Payments.p_status row = stored))
    /\ ((forall s, ~ Payments.reports reply s) -> db' = db)
    /\ (Payments.non_success reply -> db' = db).
Proof.
  intros settings requests db tx_ref payment Hget reply db'.
  pose proof (verify_found settings requests db tx_ref payment Hget) as Hv.
  fold reply in Hv. split.
  - intros s [json [Hreply Hs]] stored.
    subst db'. rewrite Hv, Hreply. simpl. rewrite Hs. subst stored.
    destruct (String.eqb s "success"); simpl.
    + exact (save_status db tx_ref payment "completed" Hget).
    + exact (save_status db tx_ref payment "failed" Hget).
  - assert (Hother : (forall s, ~ Payments.reports reply s) -> db' = db).
    { intro Hnone. subst db'. rewrite Hv.
      destruct reply as [status_code json|] eqn:Hreply; [| reflexivity].
      destruct (Z.eqb_spec status_code 200) as [H200 | Hne];
        [| reflexivity].
      destruct (Payments.j_status json) as [s|] eqn:Hs; [| reflexivity].
      exfalso. apply (Hnone s). exists json. subst status_code.
      now split. }
    split; [exact Hother |].
    intros [status_code [json [Hreply Hne]]]. apply Hother.
    intros s [json' [Hreply' _]]. rewrite Hreply in Hreply'.
    injection Hreply' as H200 _. contradiction.
Qed.

(** A pending payment verified against a settling gateway is stored as
    completed. *)
Lemma verify_status_follows_gateway_witness :
  In (Scenario.P.payment "completed")
     (Payments.Payment_objects
        (snd (Payments.VerifyPaymentView_get Scenario.P.settings
                Scenario.P.settling (Scenario.P.db "pending") "travel-abc"))).
Proof.
  destruct (verify_status_follows_gateway Scenario.P.settings
              Scenario.P.settling (Scenario.P.db "pending") "travel-abc"
              (Scenario.P.payment "pending") eq_refl) as [H _].
  destruct (H "success") as [Hin _].
  - exists (Payments.mkJson (Some "success") None). now split.
  - exact Hin.
Defined.

(** C4 as stated fails: a payment stored as failed is verified again, the
    gateway now reports success, and the stored status becomes completed;
    symmetrically a completed payment becomes failed when the gateway
    reports a failure. *)
Lemma verify_overwrites_leaf_status :
  Payments.Payment_objects
    (snd (Payments.VerifyPaymentView_get Scenario.P.settings
            Scenario.P.settling (Scenario.P.db "failed") "travel-abc"))
  = [Scenario.P.payment "completed"]
  /\ Payments.Payment_objects
       (snd (Payments.VerifyPaymentView_get Scenario.P.settings
               Scenario.P.declining (Scenario.P.db "completed")
               "travel-abc"))
     = [Scenario.P.payment "failed"]
  /\ Payments.p_status (Scenario.P.payment "completed")
     <> Payments.p_status (Scenario.P.payment "failed").
Proof. repeat split. discriminate. Qed.

(** C5.  When the gateway answers anything but 200, initiate for a booking
    that is found and has no payment reports GatewayError and verify for a
    payment that is found reports GatewayError, and either leaves the
    database exactly as it was: no Payment row is added, the payment keeps
    its status, nothing is queued. *)
Theorem gateway_failure_changes_nothing :
  forall (settings : Payments.Settings) (requests : Payments.Requests)
         (db : Payments.Database),
    (forall user booking_id uuid_hex booking,
        Payments.Booking_objects_get db booking_id user = Orm.Found booking ->
        Payments.has_payment db booking = false ->
        Payments.non_success
          (Payments.post requests (Payments.initialize_url settings)
             (Payments.initialize_headers settings)
             (Payments.initialize_payload settings user booking_id
                (Payments.b_total_price booking)
                ("travel-" ++ uuid_hex)%string)) ->
        Payments.InitiatePaymentView_post settings requests db user
          booking_id uuid_hex
        = (Payments.Returns Payments.GatewayError_initiate, db))
    /\ (forall tx_ref payment,
           Payments.Payment_objects_get db tx_ref = Orm.Found payment ->
           Payments.non_success
             (Payments.get requests (Payments.verify_url settings tx_ref)
                (Payments.verify_headers settings)) ->
           Payments.VerifyPaymentView_get settings requests db tx_ref
           = (Payments.Returns Payments.GatewayError_verify, db)).
Proof.
  intros settings requests db. split.
  - intros user booking_id uuid_hex booking Hget Hhas
           [status_code [json [Hreply Hne]]].
    unfold Payments.InitiatePaymentView_post.
    rewrite Hget, Hhas, Hreply.
    apply Z.eqb_neq in Hne. now rewrite Hne.
  - intros tx_ref payment Hget [status_code [json [Hreply Hne]]].
    rewrite (verify_found settings requests db tx_ref payment Hget), Hreply.
    apply Z.eqb_neq in Hne. now rewrite Hne.
Qed.

(** The gateway answers 502: initiate on the unpaid booking and verify on
    the pending payment both report GatewayError and change nothing. *)
Lemma gateway_failure_changes_nothing_witness :
  Payments.InitiatePaymentView_post Scenario.P.settings
    Scenario.P.unreachable Scenario.P.unpaid_db Scenario.P.payer 1 "abc"
  = (Payments.Returns Payments.GatewayError_initiate, Scenario.P.unpaid_db)
  /\ Payments.VerifyPaymentView_get Scenario.P.settings
       Scenario.P.unreachable (Scenario.P.db "pending") "travel-abc"
     = (Payments.Returns Payments.GatewayError_verify,
        Scenario.P.db "pending").
Proof.
  split.
  - apply (proj1 (gateway_failure_changes_nothing Scenario.P.settings
                    Scenario.P.unreachable Scenario.P.unpaid_db)
             Scenario.P.payer 1 "abc" Scenario.P.booking eq_refl eq_refl).
    exists 502, (Payments.mkJson None None). split; [reflexivity | lia].
  - apply (proj2 (gateway_failure_changes_nothing Scenario.P.settings
                    Scenario.P.unreachable (Scenario.P.db "pending"))
             "travel-abc" (Scenario.P.payment "pending") eq_refl).
    exists 502, (Payments.mkJson None None). split; [reflexivity | lia].
Defined.

(** C6.  When a Payment row refers to the booking found for the requester,
    initiate answers PaymentAlreadyInitiated and the database is exactly as
    it was.  And no sequence of initiate and verify requests, whatever the
    gateway answers, leaves a booking with more than one Payment: a table
    with distinct keys and at most one Payment per booking stays so. *)
Theorem at_most_one_payment_per_booking :
  forall (settings : Payments.Settings) (requests : Payments.Requests)
         (db : Payments.Database),
    (forall user booking_id uuid_hex booking,
        Payments.Booking_objects_get db booking_id user = Orm.Found booking ->
        (exists p, In p (Payments.Payment_objects db)
                   /\ Payments.p_booking p = Payments.b_id booking) ->
        Payments.InitiatePaymentView_post settings requests db user
          booking_id uuid_hex
        = (Payments.Returns Payments.PaymentAlreadyInitiated, db))
    /\ (forall calls,
           Payments.unique_ids db -> Payments.at_most_one_payment db ->
           Payments.at_most_one_payment
             (Payments.serve_all settings requests db calls)).
Proof.
  intros settings requests db. split.
  - intros user booking_id uuid_hex booking Hget Hpaid.
    apply has_payment_true_iff in Hpaid.
    unfold Payments.InitiatePaymentView_post. now rewrite Hget, Hpaid.
  - intros calls Hids Hone.
    apply (serve_all_invariant settings requests calls db Hids Hone).
Qed.

(** The payer initiates twice against a settling gateway: the second
    request answers PaymentAlreadyInitiated, and after both the booking has
    one Payment. *)
Lemma at_most_one_payment_per_booking_witness :
  Payments.InitiatePaymentView_post Scenario.P.settings Scenario.P.settling
    (Scenario.P.db "pending") Scenario.P.payer 1 "def"
  = (Payments.Returns Payments.PaymentAlreadyInitiated,
     Scenario.P.db "pending")
  /\ Payments.at_most_one_payment
       (Payments.serve_all Scenario.P.settings Scenario.P.settling
          Scenario.P.unpaid_db
          [Payments.Initiate Scenario.P.payer 1 "abc";
           Payments.Initiate Scenario.P.payer 1 "def"]).
Proof.
  split.
  - apply (proj1 (at_most_one_payment_per_booking Scenario.P.settings
                    Scenario.P.settling (Scenario.P.db "pending"))
             Scenario.P.payer 1 "def" Scenario.P.booking eq_refl).
    exists (Scenario.P.payment "pending"). split; [now left | reflexivity].
  - apply (proj2 (at_most_one_payment_per_booking Scenario.P.settings
                    Scenario.P.settling Scenario.P.unpaid_db)).
    + constructor.
    + intro booking_id. simpl. lia.
Defined.

(** C7.  When no Payment carries the transaction reference, verify answers
    PaymentNotFound and changes nothing.  When the payment is found and the
    gateway reports success, verify answers completed, the payment is
    stored as completed, as is every row under the reference, and the queue
    has grown by exactly one task, the confirmation for the payment's
    booking. *)
Theorem verify_not_found_or_completed :
  forall (settings : Payments.Settings) (requests : Payments.Requests)
         (db : Payments.Database) (tx_ref : string),
    ((forall p, In p (Payments.Payment_objects db) ->
                Payments.p_transaction_id p <> tx_ref) ->
     Payments.VerifyPaymentView_get settings requests db tx_ref
     = (Payments.Returns Payments.PaymentNotFound, db))
    /\ (forall payment,
           Payments.Payment_objects_get db tx_ref = Orm.Found payment ->
           Payments.reports
             (Payments.get requests (Payments.verify_url settings tx_ref)
                (Payments.verify_headers settings)) "success" ->
           exists db',
             Payments.VerifyPaymentView_get settings requests db tx_ref
             = (Payments.Returns Payments.PaymentCompleted, db')
             /\ In (Payments.set_status payment "completed")
                   (Payments.Payment_objects db')
             /\ (forall row,
                    In row (Payments.Payment_objects db') ->
                    Payments.p_transaction_id row = tx_ref ->
                    Payments.p_status row = "completed")
             /\ Payments.queue db'
                = (Payments.queue db
                   ++ [Payments.send_booking_confirmation
                         (Payments.p_booking payment)])%list).
Proof.
  intros settings requests db tx_ref. split.
  - intro Hnone. unfold Payments.VerifyPaymentView_get,
      Payments.Payment_objects_get.
    rewrite objects_get_DoesNotExist; [reflexivity |].
    intros p Hin. apply String.eqb_neq. now apply Hnone.
  - intros payment Hget [json [Hreply Hs]].
    rewrite (verify_found settings requests db tx_ref payment Hget), Hreply.
    simpl. rewrite Hs. simpl.
    eexists. split; [reflexivity |].
    destruct (save_status db tx_ref payment "completed" Hget) as [Hin Hall].
    repeat split; assumption || reflexivity.
Qed.

(** An unknown reference is not found; the pending payment verified
    against a settling gateway is completed and one confirmation is
    queued. *)
Lemma verify_not_found_or_completed_witness :
  Payments.VerifyPaymentView_get Scenario.P.settings Scenario.P.settling
    (Scenario.P.db "pending") "travel-xyz"
  = (Payments.Returns Payments.PaymentNotFound, Scenario.P.db "pending")
  /\ exists db',
       Payments.VerifyPaymentView_get Scenario.P.settings
         Scenario.P.settling (Scenario.P.db "pending") "travel-abc"
       = (Payments.Returns Payments.PaymentCompleted, db')
       /\ Payments.queue db' = [Payments.send_booking_confirmation 1].
Proof.
  split.
  - apply (proj1 (verify_not_found_or_completed Scenario.P.settings
                    Scenario.P.settling (Scenario.P.db "pending")
                    "travel-xyz")).
    intros p [<- | []]. discriminate.
  - destruct (proj2 (verify_not_found_or_completed Scenario.P.settings
                       Scenario.P.settling (Scenario.P.db "pending")
                       "travel-abc")
                (Scenario.P.payment "pending") eq_refl)
      as [db' (Hv & _ & _ & Hq)].
    + exists (Payments.mkJson (Some "success") None). now split.
    + exists db'. split; [exact Hv | exact Hq].
Defined.

(** C10.  The booking is looked up by its id and the requester together:
    when every booking with the requested id belongs to someone else, as
    when there is none, initiate answers 404 with the error
    Booking not found, the same response in both cases, and changes
    nothing. *)
Theorem initiate_hides_other_users_bookings :
  forall (settings : Payments.Settings) (requests : Payments.Requests)
         (db : Payments.Database) (user : Payments.User) (booking_id : Z)
         (uuid_hex : string),
    (forall b, In b (Payments.Booking_objects db) ->
               Payments.b_id b = booking_id ->
               Payments.b_user b <> Payments.u_id user) ->
    Payments.InitiatePaymentView_post settings requests db user booking_id
      uuid_hex
    = (Payments.Returns
         (Payments.mkResponse [("error", "Booking not found")] 404),
       db).
Proof.
  intros settings requests db user booking_id uuid_hex Hother.
  unfold Payments.InitiatePaymentView_post, Payments.Booking_objects_get.
  rewrite objects_get_DoesNotExist; [reflexivity |].
  intros b Hin. apply andb_false_iff.
  destruct (Z.eqb_spec (Payments.b_id b) booking_id) as [Heq | Hne].
  - right. apply Z.eqb_neq. now apply Hother.
  - now left.
Qed.

(** Booking 1 belongs to the payer: a stranger who asks for it gets the
    response a request for the missing booking 99 gets. *)
Lemma initiate_hides_other_users_bookings_witness :
  Payments.InitiatePaymentView_post Scenario.P.settings Scenario.P.settling
    Scenario.P.unpaid_db Scenario.P.stranger 1 "abc"
  = (Payments.Returns Payments.BookingNotFound, Scenario.P.unpaid_db)
  /\ fst (Payments.InitiatePaymentView_post Scenario.P.settings
            Scenario.P.settling Scenario.P.unpaid_db Scenario.P.stranger 1
            "abc")
     = fst (Payments.InitiatePaymentView_post Scenario.P.settings
              Scenario.P.settling Scenario.P.unpaid_db Scenario.P.stranger
              99 "abc").
Proof.
  assert (H1 := initiate_hides_other_users_bookings Scenario.P.settings
                  Scenario.P.settling Scenario.P.unpaid_db
                  Scenario.P.stranger 1 "abc").
  assert (H99 := initiate_hides_other_users_bookings Scenario.P.settings
                   Scenario.P.settling Scenario.P.unpaid_db
                   Scenario.P.stranger 99 "abc").
  rewrite H1, H99.
  - split; reflexivity.
  - intros b [<- | []]. simpl. discriminate.
  - intros b [<- | []]. simpl. discriminate.
Defined.

(** * Further properties *)

(** ** Text hooks ([ListingSerializer], [Listing.amenities_list]) *)

Section StrFacts.
Import Str.

Lemma lstrip_head (s : string) :
  lstrip s = EmptyString
  \/ exists c rest, lstrip s = String c rest /\ isspace c = false.
Proof.
  induction s as [|c rest IH]; simpl; [now left |].
  destruct (isspace c) eqn:Hc; [exact IH |].
  right. now exists c, rest.
Qed.

Lemma rstrip_keeps_head (c : ascii) (rest : string) :
  isspace c = false -> rstrip (String c rest) = String c (rstrip rest).
Proof.
  intro Hc. simpl. rewrite Hc. now destruct (rstrip rest).
Qed.

Lemma rstrip_cons_kept (c k : ascii) (rest kept : string) :
  rstrip rest = String k kept ->
  rstrip (String c rest) = String c (String k kept).
Proof. intro H. simpl. now rewrite H. Qed.

Lemma rstrip_idempotent (s : string) : rstrip (rstrip s) = rstrip s.
Proof.
  induction s as [|c rest IH]; [reflexivity |].
  destruct (rstrip rest) as [|k kept] eqn:Hrest.
  - simpl. rewrite Hrest.
    destruct (isspace c) eqn:Hc; simpl; [reflexivity | now rewrite Hc].
  - rewrite (rstrip_cons_kept c k rest kept Hrest).
    now apply rstrip_cons_kept.
Qed.

Lemma lstrip_strip (s : string) : lstrip (strip s) = strip s.
Proof.
  unfold strip.
  destruct (lstrip_head s) as [H | [c [rest [H Hc]]]]; rewrite H.
  - reflexivity.
  - rewrite (rstrip_keeps_head c rest Hc). simpl. now rewrite Hc.
Qed.

Lemma rstrip_strip (s : string) : rstrip (strip s) = strip s.
Proof. apply rstrip_idempotent. Qed.

Lemma strip_idempotent (s : string) : strip (strip s) = strip s.
Proof.
  unfold strip at 1. rewrite lstrip_strip. apply rstrip_strip.
Qed.

Lemma lstrip_chars (s : string) (c : ascii) :
  In c (list_ascii_of_string (lstrip s)) -> In c (list_ascii_of_string s).
Proof.
  induction s as [|d rest IH]; simpl; [tauto |].
  destruct (isspace d); simpl; [intro H; right; now apply IH | tauto].
Qed.

Lemma rstrip_chars (s : string) (c : ascii) :
  In c (list_ascii_of_string (rstrip s)) -> In c (list_ascii_of_string s).
Proof.
  induction s as [|d rest IH]; simpl; [tauto |].
  destruct (rstrip rest) as [|k kept].
  - destruct (isspace d); simpl; tauto.
  - simpl in IH |- *. intros [H | H]; [now left | right; now apply IH].
Qed.

Lemma strip_chars (s : string) (c : ascii) :
  In c (list_ascii_of_string (strip s)) -> In c (list_ascii_of_string s).
Proof.
  unfold strip. intro H. now apply lstrip_chars, rstrip_chars.
Qed.

Lemma split_nonempty (sep : ascii) (s : string) : split sep s <> [].
Proof.
  destruct s as [|c rest]; simpl; [discriminate |].
  destruct (Ascii.eqb c sep); [discriminate |].
  destruct (split sep rest); discriminate.
Qed.

Lemma split_no_separator (sep : ascii) (s piece : string) :
  In piece (split sep s) -> ~ In sep (list_ascii_of_string piece).
Proof.
  revert piece. induction s as [|c rest IH]; simpl; intros piece Hin.
  - destruct Hin as [<- | []]. simpl. tauto.
  - destruct (Ascii.eqb_spec c sep) as [Heq | Hne].
    + destruct Hin as [<- | Hin]; [simpl; tauto | now apply IH].
    + destruct (split sep rest) as [|p ps] eqn:Hs.
      * destruct Hin as [<- | []]. simpl. intros [H | []]. congruence.
      * destruct Hin as [<- | Hin].
        -- simpl. intros [H | H]; [congruence |].
           apply (IH p); [now left | exact H].
        -- apply IH. now right.
Qed.

End StrFacts.

(** X1.  A title or description that passes its hook comes back stripped:
    it is the value without the white space around it, it has no white
    space at either end, it has at least 5 (title) or 20 (description)
    characters, and it passes the hook again unchanged.  A value the hook
    refuses has fewer characters than that once stripped. *)
Theorem listing_text_hooks_return_stripped :
  forall value : string,
    match Serializers.validate_title value with
    | Serializers.Valid title =>
        title = Str.strip value /\ 5 <= Str.len title
        /\ Str.lstrip title = title /\ Str.rstrip title = title
        /\ Serializers.validate_title title = Serializers.Valid title
    | Serializers.ValidationError _ => Str.len (Str.strip value) < 5
    | Serializers.Uncaught _ => False
    end
    /\ match Serializers.validate_description value with
       | Serializers.Valid description =>
           description = Str.strip value /\ 20 <= Str.len description
           /\ Str.lstrip description = description
           /\ Str.rstrip description = description
           /\ Serializers.validate_description description
              = Serializers.Valid description
       | Serializers.ValidationError _ => Str.len (Str.strip value) < 20
       | Serializers.Uncaught _ => False
       end.
Proof.
  intro value.
  unfold Serializers.validate_title, Serializers.validate_description.
  split.
  - destruct (Z.ltb_spec (Str.len (Str.strip value)) 5) as [Hlt | Hge];
      [exact Hlt |].
    repeat split; auto using lstrip_strip, rstrip_strip.
    rewrite strip_idempotent.
    destruct (Z.ltb_spec (Str.len (Str.strip value)) 5); [lia | reflexivity].
  - destruct (Z.ltb_spec (Str.len (Str.strip value)) 20) as [Hlt | Hge];
      [exact Hlt |].
    repeat split; auto using lstrip_strip, rstrip_strip.
    rewrite strip_idempotent.
    destruct (Z.ltb_spec (Str.len (Str.strip value)) 20); [lia | reflexivity].
Qed.

(** X2.  Every entry of [amenities_list] is a non-empty text without a
    comma and without white space at either end, and the list has at most
    one entry more than the text has commas. *)
Theorem amenities_list_entries :
  forall (amenities amenity : string),
    In amenity (Models.amenities_list amenities) ->
    amenity <> EmptyString
    /\ ~ In ","%char (list_ascii_of_string amenity)
    /\ Str.lstrip amenity = amenity /\ Str.rstrip amenity = amenity
    /\ (List.length (Models.amenities_list amenities)
        <= List.length (Str.split ","%char amenities))%nat.
Proof.
  intros amenities amenity Hin. unfold Models.amenities_list in *.
  apply in_map_iff in Hin. destruct Hin as [piece [<- Hpiece]].
  apply filter_In in Hpiece. destruct Hpiece as [Hpiece Htruthy].
  repeat split.
  - intro H. rewrite H in Htruthy. discriminate.
  - intro H. apply strip_chars in H.
    now apply (split_no_separator ","%char amenities piece).
  - apply lstrip_strip.
  - apply rstrip_strip.
  - rewrite length_map. apply filter_length_le.
Qed.

(** A text with blanks and empty entries. *)
Lemma amenities_list_entries_witness :
  Models.amenities_list "wifi, pool,,  ,parking "
  = ["wifi"; "pool"; "parking"]
  /\ "pool" <> EmptyString.
Proof.
  split; [reflexivity |].
  apply (amenities_list_entries "wifi, pool,,  ,parking " "pool").
  simpl. tauto.
Defined.

(** ** What an accepted booking request guarantees *)

Section ValidateSound.
Import Orm Serializers.

(** [validate] in full: the date check, then the listing, then the scan. *)
Lemma validate_cases (db : Database) (instance : option Booking)
    (data : Attrs) :
  validate db instance data =
    match validate_date_range data with
    | Some message => ValidationError message
    | None =>
        match listing_id data with
        | None => Valid data
        | Some lid =>
            if lid =? 0 then Valid data
            else
              match objects_get (fun l => l_id l =? lid)
                                (Listing_objects db) with
              | DoesNotExist => ValidationError InvalidListing
              | MultipleObjectsReturned =>
                  Uncaught "Listing.MultipleObjectsReturned"
              | Found listing =>
                  if negb (l_availability listing)
                  then ValidationError ListingUnavailable
                  else
                    match start_date data, end_date data with
                    | Some s, Some e =>
                        if exists_ (conflicting_bookings db instance
                                                         listing s e)
                        then ValidationError DateConflict
                        else Valid data
                    | _, _ => Valid data
                    end
              end
        end
    end.
Proof. reflexivity. Qed.

Lemma validate_date_range_None (data : Attrs) (s e : Z) :
  validate_date_range data = None ->
  start_date data = Some s -> end_date data = Some e ->
  s < e /\ e - s <= 365.
Proof.
  unfold validate_date_range. intros H Hs He. rewrite Hs, He in H.
  destruct (Z.geb_spec s e); [discriminate |].
  destruct (Z.gtb_spec (e - s) 365); [discriminate |]. lia.
Qed.

End ValidateSound.

(** X3.  What [validate] accepts it returns unchanged, and acceptance
    means: dates that are both given are in order and at most 365 days
    apart; a nonzero listing_id names a listing that is found and
    available; and with all three given no pending or confirmed booking of
    that listing, the booking under update apart, overlaps the dates. *)
Theorem validate_accepts_only_bookable :
  forall (db : Serializers.Database) (instance : option Serializers.Booking)
         (data out : Serializers.Attrs),
    Serializers.validate db instance data = Serializers.Valid out ->
    out = data
    /\ (forall s e,
           Serializers.start_date data = Some s ->
           Serializers.end_date data = Some e ->
           s < e /\ e - s <= 365)
    /\ (forall lid,
           Serializers.listing_id data = Some lid -> lid <> 0 ->
           exists listing,
             In listing (Serializers.Listing_objects db)
             /\ Serializers.l_id listing = lid
             /\ Serializers.l_availability listing = true
             /\ (forall s e b,
                    Serializers.start_date data = Some s ->
                    Serializers.end_date data = Some e ->
                    In b (Serializers.Booking_objects db) ->
                    ~ Serializers.conflicts_with instance lid s e b)).
Proof.
  intros db instance data out Hv. rewrite validate_cases in Hv.
  destruct (Serializers.validate_date_range data) eqn:Hrange;
    [discriminate |].
  assert (Hdates : forall s e,
             Serializers.start_date data = Some s ->
             Serializers.end_date data = Some e -> s < e /\ e - s <= 365)
    by (intros s e; now apply validate_date_range_None).
  destruct (Serializers.listing_id data) as [lid|] eqn:Hlid.
  - destruct (Z.eqb_spec lid 0) as [Hz | Hnz].
    + injection Hv as Hout; subst out. split; [reflexivity | split; [exact Hdates |]].
      intros lid' Hl Hne. congruence.
    + destruct (Orm.objects_get _ _) as [listing| |] eqn:Hget;
        try discriminate.
      destruct (Serializers.l_availability listing) eqn:Hav;
        [| discriminate].
      simpl in Hv.
      destruct (objects_get_Found_In _ _ _ Hget) as [Hin Hk].
      apply Z.eqb_eq in Hk.
      assert (Hout : out = data /\
                     forall s e b,
                       Serializers.start_date data = Some s ->
                       Serializers.end_date data = Some e ->
                       In b (Serializers.Booking_objects db) ->
                       ~ Serializers.conflicts_with instance lid s e b).
      { destruct (Serializers.start_date data) as [s|];
          [destruct (Serializers.end_date data) as [e|] |].
        - destruct (Orm.exists_ _) eqn:Hex; [discriminate |].
          injection Hv as Hout; subst out. split; [reflexivity |].
          intros s' e' b Hs He Hb Hc. inversion Hs; inversion He; subst s' e'.
          apply (proj1 (exists_false_iff _) Hex b).
          apply In_conflicting_bookings. rewrite Hk. now split.
        - injection Hv as Hout; subst out. split; [reflexivity | discriminate].
        - injection Hv as Hout; subst out. split; [reflexivity | discriminate]. }
      destruct Hout as [Hout Hfree].
      split; [exact Hout | split; [exact Hdates |]].
      intros lid' Hl Hne. inversion Hl; subst lid'.
      exists listing. repeat split; auto.
  - injection Hv as Hout; subst out. split; [reflexivity | split; [exact Hdates |]].
    discriminate.
Qed.

(** The stay under update is moved to June 3 to June 5 and accepted. *)
Lemma validate_accepts_only_bookable_witness :
  Scenario.june_3 < Scenario.june_5
  /\ Scenario.june_5 - Scenario.june_3 <= 365.
Proof.
  destruct (validate_accepts_only_bookable Scenario.S.open_db
              (Some (Scenario.S.stay Scenario.S.open_listing))
              Scenario.S.request Scenario.S.request eq_refl)
    as (_ & Hdates & _).
  exact (Hdates Scenario.june_3 Scenario.june_5 eq_refl eq_refl).
Defined.

(** X4.  Accepted requests never double-book.  When the table holds no two
    overlapping active bookings of one listing, a booking stored with the
    dates and the listing of an accepted create request keeps it so, and
    so does the booking under update once every row under its key carries
    the dates and the listing of an accepted update request. *)
Theorem validate_keeps_no_double_booking :
  forall (db : Serializers.Database) (data : Serializers.Attrs)
         (s e lid : Z) (stored : Serializers.Booking),
    Serializers.start_date data = Some s ->
    Serializers.end_date data = Some e ->
    Serializers.listing_id data = Some lid -> lid <> 0 ->
    Serializers.no_double_booking (Serializers.Booking_objects db) ->
    Serializers.l_id (Serializers.b_listing stored) = lid ->
    Serializers.b_start_date stored = s ->
    Serializers.b_end_date stored = e ->
    (Serializers.validate db None data = Serializers.Valid data ->
     Serializers.no_double_booking
       (Serializers.Booking_objects db ++ [stored]))
    /\ (forall instance,
           Serializers.validate db (Some instance) data
           = Serializers.Valid data ->
           Serializers.b_id stored = Serializers.b_id instance ->
           Serializers.no_double_booking
             (map (fun row =>
                     if Serializers.b_id row =? Serializers.b_id instance
                     then stored else row)
                  (Serializers.Booking_objects db))).
Proof.
  intros db data s e lid stored Hs He Hl Hnz Hinv Hlisting Hstart Hend.
  assert (Hfree : forall instance b,
             Serializers.validate db instance data = Serializers.Valid data ->
             In b (Serializers.Booking_objects db) ->
             Serializers.b_id b <> Serializers.b_id stored ->
             (forall current, instance = Some current ->
                              Serializers.b_id stored
                              = Serializers.b_id current) ->
             Serializers.l_id (Serializers.b_listing b) = lid ->
             Serializers.active b ->
             e <= Serializers.b_start_date b
             \/ Serializers.b_end_date b <= s).
  { intros instance b Hv Hb Hne Hcur Hbl Hact.
    destruct (validate_accepts_only_bookable db instance data data Hv)
      as (_ & _ & Hscan).
    destruct (Hscan lid Hl Hnz) as (listing & _ & _ & _ & Hno).
    specialize (Hno s e b Hs He Hb).
    destruct (Z.le_gt_cases e (Serializers.b_start_date b)) as [H1 | H1];
      [now left |].
    destruct (Z.le_gt_cases (Serializers.b_end_date b) s) as [H2 | H2];
      [now right |].
    exfalso. apply Hno. unfold Serializers.conflicts_with.
    repeat split; auto; try lia.
    intros current Hc. rewrite <- (Hcur current Hc). exact Hne. }
  split.
  - intros Hv b1 b2 H1 H2 Hne Hsame A1 A2.
    assert (Hcur : forall current : Serializers.Booking,
               None = Some current ->
               Serializers.b_id stored = Serializers.b_id current)
      by discriminate.
    apply in_app_iff in H1. apply in_app_iff in H2. simpl in H1, H2.
    destruct H1 as [H1 | [<- | []]]; destruct H2 as [H2 | [<- | []]].
    + now apply Hinv.
    + rewrite Hstart, Hend.
      assert (Hl1 : Serializers.l_id (Serializers.b_listing b1) = lid)
        by congruence.
      destruct (Hfree None b1 Hv H1 Hne Hcur Hl1 A1); [right | left];
        assumption.
    + rewrite Hstart, Hend.
      assert (Hl2 : Serializers.l_id (Serializers.b_listing b2) = lid)
        by congruence.
      assert (Hne2 : Serializers.b_id b2 <> Serializers.b_id stored)
        by congruence.
      exact (Hfree None b2 Hv H2 Hne2 Hcur Hl2 A2).
    + contradiction.
  - intros instance Hv Hid b1 b2 H1 H2 Hne Hsame A1 A2.
    assert (Hcur : forall current : Serializers.Booking,
               Some instance = Some current ->
               Serializers.b_id stored = Serializers.b_id current)
      by (intros current Hc; inversion Hc; now subst).
    apply in_map_iff in H1. apply in_map_iff in H2.
    destruct H1 as [r1 [E1 H1]]. destruct H2 as [r2 [E2 H2]].
    destruct (Z.eqb_spec (Serializers.b_id r1) (Serializers.b_id instance))
      as [I1 | N1];
      destruct (Z.eqb_spec (Serializers.b_id r2) (Serializers.b_id instance))
        as [I2 | N2]; subst b1 b2.
    + contradiction.
    + rewrite Hstart, Hend.
      assert (Hl2 : Serializers.l_id (Serializers.b_listing r2) = lid)
        by congruence.
      assert (Hne2 : Serializers.b_id r2 <> Serializers.b_id stored)
        by congruence.
      exact (Hfree (Some instance) r2 Hv H2 Hne2 Hcur Hl2 A2).
    + rewrite Hstart, Hend.
      assert (Hl1 : Serializers.l_id (Serializers.b_listing r1) = lid)
        by congruence.
      assert (Hne1 : Serializers.b_id r1 <> Serializers.b_id stored)
        by congruence.
      destruct (Hfree (Some instance) r1 Hv H1 Hne1 Hcur Hl1 A1);
        [right | left]; assumption.
    + now apply Hinv.
Qed.

(** Back to back: the night after a stay of June 1 to June 4 is accepted
    and the table stays free of double bookings. *)
Lemma validate_keeps_no_double_booking_witness :
  Serializers.no_double_booking
    ([Scenario.S.stay Scenario.S.open_listing] ++ [Cases.S.next_stay]).
Proof.
  apply (proj1 (validate_keeps_no_double_booking Scenario.S.open_db
                  Cases.S.next_request Scenario.june_4 Scenario.june_5 1
                  Cases.S.next_stay eq_refl eq_refl eq_refl
                  ltac:(discriminate)
                  ltac:(intros b1 b2 [<- | []] [<- | []] Hne; contradiction)
                  eq_refl eq_refl eq_refl)).
  reflexivity.
Defined.

(** X5.  The scan for conflicts runs only when both dates and a nonzero
    listing_id are given.  When a date is missing, or listing_id is
    missing or 0, the answer of [validate] depends neither on the bookings
    table nor on the booking under update, and it is never DateConflict:
    such a request is accepted although it may overlap a stored booking. *)
Theorem validate_without_scan :
  forall (db : Serializers.Database) (instance : option Serializers.Booking)
         (data : Serializers.Attrs),
    Serializers.start_date data = None
    \/ Serializers.end_date data = None
    \/ Serializers.listing_id data = None
    \/ Serializers.listing_id data = Some 0 ->
    Serializers.validate db instance data
    = Serializers.validate
        (Serializers.mkDatabase (Serializers.Listing_objects db) [])
        None data
    /\ Serializers.validate db instance data
       <> Serializers.ValidationError Serializers.DateConflict.
Proof.
  intros db instance data H. rewrite !validate_cases. simpl.
  unfold Serializers.validate_date_range.
  destruct (Serializers.start_date data) as [s|] eqn:Hs;
    destruct (Serializers.end_date data) as [e|] eqn:He;
    destruct (Serializers.listing_id data) as [lid|] eqn:Hl;
    try (destruct H as [H | [H | [H | H]]]; discriminate H);
    try (destruct (s >=? e); [split; [reflexivity | discriminate] |];
         destruct (e - s >? 365); split; reflexivity || discriminate);
    try (destruct (lid =? 0); [split; [reflexivity | discriminate] |];
         destruct (Orm.objects_get _ _) as [listing| |];
         try (split; [reflexivity | discriminate]);
         destruct (negb (Serializers.l_availability listing));
         split; reflexivity || discriminate);
    try (split; [reflexivity | discriminate]).
  assert (Hz : lid = 0)
    by (destruct H as [H | [H | [H | H]]]; congruence).
  subst lid. simpl.
  destruct (s >=? e); [split; [reflexivity | discriminate] |].
  destruct (e - s >? 365); split; reflexivity || discriminate.
Qed.

(** A partial update that names only a start date pulls the stay of
    June 4 to June 5 back to June 1, over the stored stay of June 1 to
    June 4: it is accepted, as it is on an empty table. *)
Lemma validate_without_scan_witness :
  Serializers.validate Cases.S.two_stays (Some Cases.S.next_stay)
    Cases.S.start_only
  = Serializers.Valid Cases.S.start_only.
Proof.
  destruct (validate_without_scan Cases.S.two_stays
              (Some Cases.S.next_stay) Cases.S.start_only) as [H _].
  - right. now left.
  - rewrite H. reflexivity.
Defined.

(** X6.  A nonzero listing_id that no listing carries is refused with
    Invalid listing ID, whenever the date check has passed. *)
Theorem validate_unknown_listing :
  forall (db : Serializers.Database) (instance : option Serializers.Booking)
         (data : Serializers.Attrs) (lid : Z),
    Serializers.validate_date_range data = None ->
    Serializers.listing_id data = Some lid -> lid <> 0 ->
    (forall l, In l (Serializers.Listing_objects db) ->
               Serializers.l_id l <> lid) ->
    Serializers.validate db instance data
    = Serializers.ValidationError Serializers.InvalidListing.
Proof.
  intros db instance data lid Hrange Hl Hnz Hnone.
  rewrite validate_cases, Hrange, Hl.
  apply Z.eqb_neq in Hnz. rewrite Hnz.
  rewrite objects_get_DoesNotExist; [reflexivity |].
  intros l Hin. apply Z.eqb_neq. now apply Hnone.
Qed.

Lemma validate_unknown_listing_witness :
  Serializers.validate Scenario.S.open_db None
    (Serializers.mkAttrs (Some Scenario.june_3) (Some Scenario.june_5)
       (Some 42))
  = Serializers.ValidationError Serializers.InvalidListing.
Proof.
  apply (validate_unknown_listing Scenario.S.open_db None
           (Serializers.mkAttrs (Some Scenario.june_3)
              (Some Scenario.june_5) (Some 42)) 42 eq_refl eq_refl).
  - discriminate.
  - intros l [<- | []]. discriminate.
Defined.

(** X7.  What the serializer accepts as a whole has passed [validate] and
    names no date before today. *)
Theorem run_validation_accepts_no_past_date :
  forall (today : Z) (db : Serializers.Database)
         (instance : option Serializers.Booking)
         (data out : Serializers.Attrs),
    Serializers.run_validation today db instance data
    = Serializers.Valid out ->
    Serializers.validate db instance data = Serializers.Valid out
    /\ (forall s, Serializers.start_date data = Some s -> today <= s)
    /\ (forall e, Serializers.end_date data = Some e -> today <= e).
Proof.
  intros today db instance data out.
  unfold Serializers.run_validation, Serializers.validate_start_date,
    Serializers.validate_end_date.
  destruct (Serializers.start_date data) as [s|];
    destruct (Serializers.end_date data) as [e|];
    repeat match goal with
      | |- context [?a <? today] => destruct (Z.ltb_spec a today)
      end;
    intro Hrun; try discriminate Hrun;
    (split; [exact Hrun |]); split; intros d Hd; inversion Hd; subst; lia.
Qed.

(** Today is June 1: the request for June 3 to June 5 on an empty table
    passes, and June 3 is not before June 1. *)
Lemma run_validation_accepts_no_past_date_witness :
  Scenario.june_1 <= Scenario.june_3.
Proof.
  destruct (run_validation_accepts_no_past_date Scenario.june_1
              (Serializers.mkDatabase [Scenario.S.open_listing] []) None
              Scenario.S.request Scenario.S.request eq_refl) as (_ & Hs & _).
  exact (Hs Scenario.june_3 eq_refl).
Defined.

(** ** Model checks and the booking actions
       (alx_travel_app/alx_travel_app/listings) *)

(** X8.  [Booking.clean] passes exactly the bookings whose check-in is
    before their check-out and whose guests fit the listing; a booking
    that passes lasts at least one night. *)
Theorem clean_passes_iff :
  forall b : Models.Booking,
    (Models.clean b = inl tt <->
     Models.check_in_date b < Models.check_out_date b
     /\ Models.number_of_guests b
        <= Models.l_max_guests (Models.b_listing b))
    /\ (Models.clean b = inl tt -> 1 <= Models.duration_nights b).
Proof.
  intro b. unfold Models.clean, Models.duration_nights.
  destruct (Z.geb_spec (Models.check_in_date b) (Models.check_out_date b));
    [split; [split; [discriminate | lia] | discriminate] |].
  destruct (Z.gtb_spec (Models.number_of_guests b)
              (Models.l_max_guests (Models.b_listing b)));
    [split; [split; [discriminate | lia] | discriminate] |].
  split; [split; [lia | reflexivity] | lia].
Qed.

(** Two guests in a villa for four, June 1 to June 4: three nights. *)
Lemma clean_passes_iff_witness :
  1 <= Models.duration_nights Scenario.M.cancelled_stay.
Proof.
  apply (proj2 (clean_passes_iff Scenario.M.cancelled_stay)).
  reflexivity.
Defined.

Section ViewFacts.
Import Orm Models Views.

Lemma filter_comm {A : Type} (p q : A -> bool) (l : list A) :
  filter p (filter q l) = filter q (filter p l).
Proof.
  induction l as [|a l IH]; simpl; [reflexivity |].
  destruct (p a) eqn:Hp; destruct (q a) eqn:Hq; simpl;
    rewrite ?Hp, ?Hq, IH; reflexivity.
Qed.

Lemma filter_key_unique {A : Type} (key : A -> Z) (l : list A) (x : A) :
  NoDup (map key l) -> In x l -> filter (fun y => key y =? key x) l = [x].
Proof.
  induction l as [|a l IH]; simpl; [intros _ [] |].
  intros Hnd Hin. inversion Hnd as [|k ks Hnotin Hnd']; subst.
  destruct Hin as [-> | Hin].
  - rewrite Z.eqb_refl. f_equal. apply filter_nil_iff.
    intros y Hy. apply Z.eqb_neq. intro Heq. apply Hnotin.
    rewrite <- Heq. now apply in_map.
  - destruct (Z.eqb_spec (key a) (key x)) as [Heq | Hne]; [| now apply IH].
    exfalso. apply Hnotin. rewrite Heq. now apply in_map.
Qed.

(** Who sees a booking. *)
Lemma In_get_queryset (user : User) (rows : list Booking) (b : Booking) :
  In b (get_queryset user rows) <->
  In b rows
  /\ (u_is_staff user = true
      \/ u_id (b_guest b) = u_id user
      \/ u_id (l_host (b_listing b)) = u_id user).
Proof.
  unfold get_queryset. destruct (u_is_staff user); simpl.
  - tauto.
  - rewrite filter_In, orb_true_iff, !Z.eqb_eq.
    intuition discriminate.
Qed.

(** [save] of a row with another status keeps the keys. *)
Lemma save_keys (b : Booking) (s : string) (rows : list Booking) :
  map b_id (save (set_status b s) rows) = map b_id rows.
Proof.
  unfold save. rewrite map_map. apply map_ext. intro row. simpl.
  destruct (Z.eqb_spec (b_id row) (b_id b)); simpl; auto.
Qed.

Lemma save_In (b : Booking) (s : string) (rows : list Booking) :
  In b rows -> In (set_status b s) (save (set_status b s) rows).
Proof.
  intro Hin. unfold save. apply in_map_iff. exists b.
  simpl. now rewrite Z.eqb_refl.
Qed.

Lemma save_others (b : Booking) (s : string) (rows : list Booking)
    (row : Booking) :
  b_id row <> b_id b ->
  (In row (save (set_status b s) rows) <-> In row rows).
Proof.
  intro Hne. unfold save. rewrite in_map_iff. simpl. split.
  - intros [old [Hold Hin]].
    destruct (Z.eqb_spec (b_id old) (b_id b)).
    + subst row. simpl in Hne. contradiction.
    + now subst.
  - intro Hin. exists row. apply Z.eqb_neq in Hne. now rewrite Hne.
Qed.

(** After [save], the lookup by the saved row's key finds the saved row,
    when keys are distinct and the user may see the row. *)
Lemma get_object_after_save (user : User) (rows : list Booking)
    (b : Booking) (s : string) :
  NoDup (map b_id rows) -> In b (get_queryset user rows) ->
  get_object user (save (set_status b s) rows) (b_id b)
  = Found (set_status b s).
Proof.
  intros Hnd Hvis. apply In_get_queryset in Hvis. destruct Hvis as [Hin Hwho].
  assert (Hf : filter (fun y => b_id y =? b_id b)
                      (save (set_status b s) rows) = [set_status b s]).
  { apply (filter_key_unique b_id _ (set_status b s)).
    - now rewrite save_keys.
    - now apply save_In. }
  unfold get_object, objects_get, get_queryset.
  destruct (u_is_staff user) eqn:Hstaff; simpl.
  - now rewrite Hf.
  - rewrite filter_comm, Hf. simpl.
    destruct Hwho as [H | [H | H]]; [discriminate | |];
      rewrite H, Z.eqb_refl; simpl; rewrite ?orb_true_r; reflexivity.
Qed.

End ViewFacts.

(** X9.  A user who is not staff sees exactly the bookings made as guest
    and the bookings of the listings hosted; staff see every booking.
    Nothing is listed that is not stored. *)
Theorem booking_queryset_visibility :
  forall (user : Models.User) (rows : list Models.Booking)
         (b : Models.Booking),
    In b (Views.get_queryset user rows) <->
    In b rows
    /\ (Models.u_is_staff user = true
        \/ Models.u_id (Models.b_guest b) = Models.u_id user
        \/ Models.u_id (Models.l_host (Models.b_listing b))
           = Models.u_id user).
Proof. exact In_get_queryset. Qed.

(** X10.  [confirm] answers 200 only to the host of the booking's listing,
    with the booking as confirmed; every other answer is the 404 or the
    403 refusal and leaves the table as it was. *)
Theorem confirm_only_by_host :
  forall (user : Models.User) (rows rows' : list Models.Booking) (pk : Z)
         (response : Views.Response),
    Views.confirm user rows pk = (Some response, rows') ->
    (exists booking,
        In booking rows /\ Models.b_id booking = pk
        /\ Models.u_id (Models.l_host (Models.b_listing booking))
           = Models.u_id user
        /\ response
           = Views.mkResponse
               (Views.Data (Models.set_status booking "confirmed")) 200
        /\ rows' = Models.save (Models.set_status booking "confirmed") rows)
    \/ (rows' = rows
        /\ (response = Views.NotFound
            \/ response = Views.Forbidden_confirm)).
Proof.
  intros user rows rows' pk response. unfold Views.confirm.
  destruct (Views.get_object user rows pk) as [booking| |] eqn:Hget.
  - unfold Views.get_object in Hget.
    destruct (objects_get_Found_In _ _ _ Hget) as [Hin Hk].
    apply In_get_queryset in Hin. apply Z.eqb_eq in Hk.
    unfold Models.user_ne.
    destruct (Z.eqb_spec
                (Models.u_id (Models.l_host (Models.b_listing booking)))
                (Models.u_id user)) as [Hhost | Hother]; simpl;
      intro H; inversion H; subst.
    + left. exists booking. repeat split; tauto.
    + right. split; [reflexivity | now right].
  - intro H. inversion H; subst. right. split; [reflexivity | now left].
  - discriminate.
Qed.

(** The host confirms the cancelled stay: the answer is the first case. *)
Lemma confirm_only_by_host_witness :
  exists booking,
    Models.u_id (Models.l_host (Models.b_listing booking))
    = Models.u_id Scenario.M.host
    /\ Models.b_id booking = 5.
Proof.
  destruct (confirm_only_by_host Scenario.M.host
              [Scenario.M.cancelled_stay]
              [Models.set_status Scenario.M.cancelled_stay "confirmed"] 5
              (Views.mkResponse
                 (Views.Data
                    (Models.set_status Scenario.M.cancelled_stay "confirmed"))
                 200)
              eq_refl)
    as [[booking (_ & Hid & Hhost & _)] | [_ [H | H]]].
  - exists booking. now split.
  - discriminate H.
  - discriminate H.
Defined.

(** X11.  [cancel] never answers 403 to a user who is not staff: whoever is
    not staff and can look the booking up is its guest or its host. *)
Theorem cancel_forbidden_only_for_staff :
  forall (user : Models.User) (rows : list Models.Booking) (pk : Z),
    Models.u_is_staff user = false ->
    fst (Views.cancel user rows pk) <> Some Views.Forbidden_cancel.
Proof.
  intros user rows pk Hstaff. unfold Views.cancel.
  destruct (Views.get_object user rows pk) as [booking| |] eqn:Hget;
    simpl; try discriminate.
  unfold Views.get_object in Hget.
  destruct (objects_get_Found_In _ _ _ Hget) as [Hin _].
  apply In_get_queryset in Hin.
  destruct Hin as [_ [H | [H | H]]]; [congruence | |];
    unfold Models.user_ne; rewrite H, Z.eqb_refl; simpl;
    rewrite ?andb_false_r; simpl; discriminate.
Qed.

Lemma cancel_forbidden_only_for_staff_witness :
  fst (Views.cancel Scenario.M.guest [Scenario.M.cancelled_stay] 5)
  <> Some Views.Forbidden_cancel.
Proof.
  apply (cancel_forbidden_only_for_staff Scenario.M.guest
           [Scenario.M.cancelled_stay] 5 eq_refl).
Defined.

(** X12.  On a table with distinct keys, a confirm by the host is read
    back: the lookup of the same key then finds the booking as confirmed;
    the keys of the table are the same and every row under another key is
    as it was. *)
Theorem confirm_then_get_object :
  forall (user : Models.User) (rows : list Models.Booking) (pk : Z)
         (booking : Models.Booking),
    NoDup (map Models.b_id rows) ->
    Views.get_object user rows pk = Orm.Found booking ->
    Models.u_id (Models.l_host (Models.b_listing booking))
    = Models.u_id user ->
    let rows' := snd (Views.confirm user rows pk) in
    Views.get_object user rows' pk
    = Orm.Found (Models.set_status booking "confirmed")
    /\ map Models.b_id rows' = map Models.b_id rows
    /\ (forall row, Models.b_id row <> pk -> (In row rows' <-> In row rows)).
Proof.
  intros user rows pk booking Hnd Hget Hhost rows'.
  subst rows'. rewrite (confirm_any_status user rows pk booking Hget Hhost).
  simpl. unfold Views.get_object in Hget.
  destruct (objects_get_Found_In _ _ _ Hget) as [Hin Hk].
  apply Z.eqb_eq in Hk. subst pk.
  split; [| split].
  - now apply get_object_after_save.
  - apply save_keys.
  - intros row Hne. now apply save_others.
Qed.

Lemma confirm_then_get_object_witness :
  Views.get_object Scenario.M.host
    (snd (Views.confirm Scenario.M.host [Scenario.M.cancelled_stay] 5)) 5
  = Orm.Found (Models.set_status Scenario.M.cancelled_stay "confirmed").
Proof.
  apply (confirm_then_get_object Scenario.M.host
           [Scenario.M.cancelled_stay] 5 Scenario.M.cancelled_stay).
  - repeat constructor. simpl. tauto.
  - reflexivity.
  - reflexivity.
Defined.

(** ** Listing queries *)

Section ListingQueryFacts.
Import Models Views.

Lemma filter_param_Some (param : option string) (read : string -> option Z)
    (keep : Z -> Listing -> bool) (queryset : option (list Listing))
    (result : list Listing) :
  filter_param param read keep queryset = Some result ->
  exists rows,
    queryset = Some rows
    /\ forall l,
         In l result <->
         In l rows
         /\ (forall text, param = Some text ->
                          exists value, read text = Some value
                                        /\ keep value l = true).
Proof.
  unfold filter_param. destruct queryset as [rows|]; [| discriminate].
  destruct param as [text|].
  - destruct (read text) as [value|] eqn:Hread; [| discriminate].
    intro H. inversion H; subst. exists rows. split; [reflexivity |].
    intro l. rewrite filter_In. split.
    + intros [Hin Hk]. split; [exact Hin |].
      intros t Ht. inversion Ht; subst. now exists value.
    + intros [Hin Hk]. split; [exact Hin |].
      destruct (Hk text eq_refl) as [v [Hv Hkeep]]. congruence.
  - intro H. inversion H; subst. exists result. split; [reflexivity |].
    intro l. split; [| tauto]. intro Hin. split; [exact Hin | discriminate].
Qed.

End ListingQueryFacts.

(** X13.  When [ListingViewSet.get_queryset] does not raise, it lists
    exactly the stored listings that meet every parameter given: availability
    equal to whether the text, in lower case, is true; a price at least
    min_price and at most max_price; room for the guests.  So an
    is_available text other than true in some casing, such as yes or 1,
    selects the listings that are not available. *)
Theorem listing_queryset_meets_every_parameter :
  forall (to_decimal to_int : string -> option Z)
         (query_params : Views.QueryParams) (rows result : list Models.Listing),
    Views.Listing_get_queryset to_decimal to_int query_params rows
    = Some result ->
    (forall l,
        In l result <->
        In l rows
        /\ (forall text,
               Views.qp_is_available query_params = Some text ->
               Models.l_is_available l
               = String.eqb (Str.lower text) "true")
        /\ (forall text,
               Views.qp_min_price query_params = Some text ->
               exists min_price,
                 to_decimal text = Some min_price
                 /\ Models.l_price_per_night l >= min_price)
        /\ (forall text,
               Views.qp_max_price query_params = Some text ->
               exists max_price,
                 to_decimal text = Some max_price
                 /\ Models.l_price_per_night l <= max_price)
        /\ (forall text,
               Views.qp_guests query_params = Some text ->
               exists guests,
                 to_int text = Some guests
                 /\ Models.l_max_guests l >= guests))
    /\ (forall text l,
           Views.qp_is_available query_params = Some text ->
           Str.lower text <> "true" ->
           In l result -> Models.l_is_available l = false).
Proof.
  intros to_decimal to_int query_params rows result Hq.
  unfold Views.Listing_get_queryset in Hq.
  apply filter_param_Some in Hq. destruct Hq as [r3 [Hq H3]].
  apply filter_param_Some in Hq. destruct Hq as [r2 [Hq H2]].
  apply filter_param_Some in Hq. destruct Hq as [r1 [Hq H1]].
  injection Hq as Hq.
  assert (H0 : forall l,
             In l r1 <->
             In l rows
             /\ (forall text,
                    Views.qp_is_available query_params = Some text ->
                    Models.l_is_available l
                    = String.eqb (Str.lower text) "true")).
  { intro l. subst r1.
    destruct (Views.qp_is_available query_params) as [text|].
    - rewrite filter_In. split.
      + intros [Hin Hk]. split; [exact Hin |].
        intros t Ht. inversion Ht; subst. now apply eqb_prop.
      + intros [Hin Hk]. split; [exact Hin |].
        rewrite (Hk text eq_refl). apply eqb_reflx.
    - split; [| tauto]. intro Hin. split; [exact Hin | discriminate]. }
  assert (Hall : forall l,
             In l result <->
             In l rows
             /\ (forall text,
                    Views.qp_is_available query_params = Some text ->
                    Models.l_is_available l
                    = String.eqb (Str.lower text) "true")
             /\ (forall text,
                    Views.qp_min_price query_params = Some text ->
                    exists min_price,
                      to_decimal text = Some min_price
                      /\ Models.l_price_per_night l >= min_price)
             /\ (forall text,
                    Views.qp_max_price query_params = Some text ->
                    exists max_price,
                      to_decimal text = Some max_price
                      /\ Models.l_price_per_night l <= max_price)
             /\ (forall text,
                    Views.qp_guests query_params = Some text ->
                    exists guests,
                      to_int text = Some guests
                      /\ Models.l_max_guests l >= guests)).
  { intro l. rewrite H3, H2, H1, H0. split.
    - intros [[[[Hin Ha] Hmin] Hmax] Hg].
      repeat split; auto; intros text Ht.
      + destruct (Hmin text Ht) as [v [Hv Hk]]. exists v.
        split; [exact Hv |]. apply Z.geb_le in Hk. lia.
      + destruct (Hmax text Ht) as [v [Hv Hk]]. exists v.
        split; [exact Hv |]. now apply Z.leb_le in Hk.
      + destruct (Hg text Ht) as [v [Hv Hk]]. exists v.
        split; [exact Hv |]. apply Z.geb_le in Hk. lia.
    - intros (Hin & Ha & Hmin & Hmax & Hg).
      repeat split; auto; intros text Ht.
      + destruct (Hmin text Ht) as [v [Hv Hk]]. exists v.
        split; [exact Hv |]. apply Z.geb_le. lia.
      + destruct (Hmax text Ht) as [v [Hv Hk]]. exists v.
        split; [exact Hv |]. now apply Z.leb_le.
      + destruct (Hg text Ht) as [v [Hv Hk]]. exists v.
        split; [exact Hv |]. apply Z.geb_le. lia. }
  split; [exact Hall |].
  intros text l Ht Hne Hin. apply Hall in Hin.
  destruct Hin as (_ & Ha & _). rewrite (Ha text Ht).
  now apply String.eqb_neq.
Qed.

(** [?is_available=yes] lists the cabin, which is not available, and not
    the villa, which is. *)
Lemma listing_queryset_meets_every_parameter_witness :
  Views.Listing_get_queryset Cases.V.unreadable Cases.V.unreadable
    Cases.V.available_yes Cases.V.catalogue
  = Some [Cases.V.cabin]
  /\ Models.l_is_available Cases.V.cabin = false.
Proof.
  split; [reflexivity |].
  destruct (listing_queryset_meets_every_parameter Cases.V.unreadable
              Cases.V.unreadable Cases.V.available_yes Cases.V.catalogue
              [Cases.V.cabin] eq_refl) as [_ H].
  apply (H "yes" Cases.V.cabin eq_refl); [discriminate | now left].
Defined.

(** X14.  [ListingBookingsView.get] hands bookings out only to the host of
    the listing asked for, and then exactly the stored bookings of that
    listing. *)
Theorem listing_bookings_only_for_host :
  forall (user : Models.User) (listings : list Models.Listing)
         (bookings rows : list Models.Booking) (listing_id : Z),
    Views.ListingBookingsView_get user listings bookings listing_id
    = Some (Views.Bookings rows) ->
    (exists listing,
        In listing listings /\ Models.l_id listing = listing_id
        /\ Models.u_id (Models.l_host listing) = Models.u_id user)
    /\ (forall b,
           In b rows <->
           In b bookings
           /\ Models.l_id (Models.b_listing b) = listing_id).
Proof.
  intros user listings bookings rows listing_id.
  unfold Views.ListingBookingsView_get.
  destruct (Orm.objects_get _ listings) as [listing| |] eqn:Hget;
    try discriminate.
  destruct (objects_get_Found_In _ _ _ Hget) as [Hin Hk].
  apply Z.eqb_eq in Hk. unfold Models.user_ne.
  destruct (Z.eqb_spec (Models.u_id (Models.l_host listing))
              (Models.u_id user)) as [Hhost | Hother]; simpl;
    [| discriminate].
  intro H. inversion H; subst. split.
  - now exists listing.
  - intro b. rewrite filter_In, Z.eqb_eq. tauto.
Qed.

Lemma listing_bookings_only_for_host_witness :
  exists listing,
    In listing Cases.V.catalogue /\ Models.l_id listing = 10
    /\ Models.u_id (Models.l_host listing) = Models.u_id Scenario.M.host.
Proof.
  apply (listing_bookings_only_for_host Scenario.M.host Cases.V.catalogue
           [Scenario.M.cancelled_stay] [Scenario.M.cancelled_stay] 10
           eq_refl).
Defined.

(** ** Payment requests, step by step (listings/views.py) *)

Section PaymentSteps.
Import Orm Payments.

Variable settings : Settings.
Variable requests : Requests.

(** On a 200 from the gateway the row is created before the reply is
    read. *)
Lemma initiate_on_200 (db : Database) (user : User) (booking_id : Z)
    (uuid_hex : string) (booking : Booking) (json : Json) :
  Booking_objects_get db booking_id user = Found booking ->
  has_payment db booking = false ->
  initialize_reply settings requests user booking_id booking uuid_hex = HttpResponse 200 json ->
  InitiatePaymentView_post settings requests db user booking_id uuid_hex
  = (match j_data_checkout_url json with
     | Some checkout_url =>
         Returns (mkResponse
                    [("checkout_url", checkout_url);
                     ("message", "Payment initiated successfully")]
                    HTTP_200_OK)
     | None => Raises "KeyError"
     end,
     mkDatabase (Booking_objects db)
                (Payment_objects db ++ [Payments.created db booking uuid_hex])%list
                (queue db)).
Proof.
  intros Hget Hhas Hreply. unfold InitiatePaymentView_post.
  unfold initialize_reply in Hreply. rewrite Hget, Hhas, Hreply. simpl.
  destruct (j_data_checkout_url json); reflexivity.
Qed.

(** Once a row refers to the booking, initiate is refused. *)
Lemma initiate_after_created (db : Database) (user : User) (booking_id : Z)
    (booking : Booking) (row : Payment) (uuid_hex : string) :
  Booking_objects_get db booking_id user = Found booking ->
  p_booking row = b_id booking ->
  let db' := mkDatabase (Booking_objects db)
                        (Payment_objects db ++ [row])%list (queue db) in
  InitiatePaymentView_post settings requests db' user booking_id uuid_hex
  = (Returns PaymentAlreadyInitiated, db').
Proof.
  intros Hget Hrow db'. unfold InitiatePaymentView_post.
  change (Booking_objects_get db' booking_id user)
    with (Booking_objects_get db booking_id user).
  rewrite Hget.
  assert (Hhas : has_payment db' booking = true).
  { apply has_payment_true_iff. exists row. split; [| exact Hrow].
    simpl. apply in_app_iff. right. now left. }
  now rewrite Hhas.
Qed.

(** A row under a fresh transaction reference is found by it. *)
Lemma get_after_created (db : Database) (row : Payment) :
  (forall p, In p (Payment_objects db) ->
             p_transaction_id p <> p_transaction_id row) ->
  Payment_objects_get
    (mkDatabase (Booking_objects db) (Payment_objects db ++ [row])%list
                (queue db))
    (p_transaction_id row)
  = Found row.
Proof.
  intro Hfresh. unfold Payment_objects_get, objects_get. simpl.
  rewrite filter_app. simpl. rewrite String.eqb_refl.
  assert (Hnil : filter (fun p => String.eqb (p_transaction_id p)
                                             (p_transaction_id row))
                        (Payment_objects db) = []).
  { apply filter_nil_iff. intros p Hin. apply String.eqb_neq.
    now apply Hfresh. }
  now rewrite Hnil.
Qed.

End PaymentSteps.

(** X15.  A successful initiate is read back.  For a booking that is found
    and unpaid, a 200 from the gateway with a checkout url and a fresh
    transaction reference: the answer is 200 with that url; the payment is
    then found under travel- followed by the uuid, pending, for the
    booking, with the booking's total price as amount; and every later
    initiate for the booking is refused with PaymentAlreadyInitiated. *)
Theorem initiate_then_lookup :
  forall (settings : Payments.Settings) (requests : Payments.Requests)
         (db : Payments.Database) (user : Payments.User) (booking_id : Z)
         (uuid_hex : string) (booking : Payments.Booking)
         (json : Payments.Json) (checkout_url : string),
    Payments.Booking_objects_get db booking_id user = Orm.Found booking ->
    Payments.has_payment db booking = false ->
    Payments.initialize_reply settings requests user booking_id booking
      uuid_hex
    = Payments.HttpResponse 200 json ->
    Payments.j_data_checkout_url json = Some checkout_url ->
    (forall p, In p (Payments.Payment_objects db) ->
               Payments.p_transaction_id p <> ("travel-" ++ uuid_hex)%string) ->
    exists db' payment,
      Payments.InitiatePaymentView_post settings requests db user booking_id
        uuid_hex
      = (Payments.Returns
           (Payments.mkResponse
              [("checkout_url", checkout_url);
               ("message", "Payment initiated successfully")] 200),
         db')
      /\ Payments.Payment_objects_get db' ("travel-" ++ uuid_hex)%string
         = Orm.Found payment
      /\ Payments.p_booking payment = Payments.b_id booking
      /\ Payments.p_amount payment = Payments.b_total_price booking
      /\ Payments.p_status payment = "pending"
      /\ (forall again,
             Payments.InitiatePaymentView_post settings requests db' user
               booking_id again
             = (Payments.Returns Payments.PaymentAlreadyInitiated, db')).
Proof.
  intros settings requests db user booking_id uuid_hex booking json
         checkout_url Hget Hhas Hreply Hurl Hfresh.
  eexists. exists (Payments.created db booking uuid_hex).
  rewrite (initiate_on_200 settings requests db user booking_id uuid_hex
             booking json Hget Hhas Hreply), Hurl.
  split; [reflexivity |].
  split; [exact (get_after_created db (Payments.created db booking uuid_hex) Hfresh) |].
  repeat split.
  intro again.
  exact (initiate_after_created settings requests db user booking_id booking
           (Payments.created db booking uuid_hex) again Hget eq_refl).
Qed.

Lemma initiate_then_lookup_witness :
  exists db' payment,
    Payments.Payment_objects_get db' "travel-abc" = Orm.Found payment
    /\ Payments.p_amount payment = 30000.
Proof.
  destruct (initiate_then_lookup Scenario.P.settings Scenario.P.settling
              Scenario.P.unpaid_db Scenario.P.payer 1 "abc"
              Scenario.P.booking
              (Payments.mkJson (Some "success") (Some "https://checkout"))
              "https://checkout" eq_refl eq_refl eq_refl eq_refl)
    as (db' & payment & _ & Hfound & _ & Hamount & _).
  - intros p [].
  - exists db', payment. now split.
Defined.

(** X16.  A 200 from the gateway without a checkout url makes initiate
    raise KeyError after the payment has been stored: the pending row is
    in the table, and every later initiate for the booking is refused with
    PaymentAlreadyInitiated. *)
Theorem initiate_key_error_keeps_payment :
  forall (settings : Payments.Settings) (requests : Payments.Requests)
         (db : Payments.Database) (user : Payments.User) (booking_id : Z)
         (uuid_hex : string) (booking : Payments.Booking)
         (json : Payments.Json),
    Payments.Booking_objects_get db booking_id user = Orm.Found booking ->
    Payments.has_payment db booking = false ->
    Payments.initialize_reply settings requests user booking_id booking
      uuid_hex
    = Payments.HttpResponse 200 json ->
    Payments.j_data_checkout_url json = None ->
    exists db',
      Payments.InitiatePaymentView_post settings requests db user booking_id
        uuid_hex
      = (Payments.Raises "KeyError", db')
      /\ Payments.Payment_objects db'
         = (Payments.Payment_objects db
            ++ [Payments.created db booking uuid_hex])%list
      /\ (forall again,
             Payments.InitiatePaymentView_post settings requests db' user
               booking_id again
             = (Payments.Returns Payments.PaymentAlreadyInitiated, db')).
Proof.
  intros settings requests db user booking_id uuid_hex booking json
         Hget Hhas Hreply Hurl.
  eexists.
  rewrite (initiate_on_200 settings requests db user booking_id uuid_hex
             booking json Hget Hhas Hreply), Hurl.
  split; [reflexivity |]. split; [reflexivity |].
  intro again.
  exact (initiate_after_created settings requests db user booking_id booking
           (Payments.created db booking uuid_hex) again Hget eq_refl).
Qed.

Lemma initiate_key_error_keeps_payment_witness :
  exists db',
    Payments.InitiatePaymentView_post Scenario.P.settings Cases.P.silent
      Scenario.P.unpaid_db Scenario.P.payer 1 "abc"
    = (Payments.Raises "KeyError", db')
    /\ Payments.Payment_objects db' = [Scenario.P.payment "pending"].
Proof.
  destruct (initiate_key_error_keeps_payment Scenario.P.settings
              Cases.P.silent Scenario.P.unpaid_db Scenario.P.payer 1 "abc"
              Scenario.P.booking (Payments.mkJson None None)
              eq_refl eq_refl eq_refl eq_refl) as (db' & Hv & Hrows & _).
  exists db'. split; [exact Hv | exact Hrows].
Defined.

Section PaymentFrames.
Import Orm Payments.

Variable settings : Settings.
Variable requests : Requests.

(** [save] of a payment with another status, on distinct keys, touches
    no row under another transaction reference. *)
Lemma save_other_references (db : Database) (tx_ref : string)
    (payment : Payment) (s : string) (row : Payment) :
  Payment_objects_get db tx_ref = Found payment ->
  unique_ids db ->
  p_transaction_id row <> tx_ref ->
  (In row (Payment_objects (save (set_status payment s) db))
   <-> In row (Payment_objects db)).
Proof.
  intros Hget Hids Hne. unfold Payment_objects_get in Hget.
  destruct (objects_get_Found_In _ _ _ Hget) as [Hin Htx].
  apply String.eqb_eq in Htx.
  unfold save. simpl. rewrite in_map_iff. split.
  - intros [old [Hold Hin_old]].
    destruct (Z.eqb_spec (p_id old) (p_id payment)); simpl in Hold.
    + subst row. simpl in Hne. contradiction.
    + now subst.
  - intro Hrow. exists row. split; [| exact Hrow].
    destruct (Z.eqb_spec (p_id row) (p_id payment)) as [Heq | Hdiff];
      [| reflexivity].
    exfalso. apply Hne.
    now rewrite (NoDup_map_eq p_id _ row payment Hids Hrow Hin Heq).
Qed.

Lemma save_ids (db : Database) (payment : Payment) (s : string) :
  map p_id (Payment_objects (save (set_status payment s) db))
  = map p_id (Payment_objects db).
Proof.
  unfold save. simpl. rewrite map_map. apply map_ext. intro row. simpl.
  destruct (Z.eqb_spec (p_id row) (p_id payment)); simpl; auto.
Qed.

End PaymentFrames.

(** X17.  When the gateway reports anything but success for a payment that
    is found, verify answers 400 with the status failed, stores the
    payment as failed and queues no notification. *)
Theorem verify_reported_failure :
  forall (settings : Payments.Settings) (requests : Payments.Requests)
         (db : Payments.Database) (tx_ref : string)
         (payment : Payments.Payment) (s : string),
    Payments.Payment_objects_get db tx_ref = Orm.Found payment ->
    Payments.reports (Payments.verify_reply settings requests tx_ref) s ->
    s <> "success" ->
    exists db',
      Payments.VerifyPaymentView_get settings requests db tx_ref
      = (Payments.Returns Payments.PaymentFailed, db')
      /\ In (Payments.set_status payment "failed")
            (Payments.Payment_objects db')
      /\ Payments.queue db' = Payments.queue db
      /\ Payments.Booking_objects db' = Payments.Booking_objects db.
Proof.
  intros settings requests db tx_ref payment s Hget [json [Hreply Hs]] Hne.
  unfold Payments.verify_reply in Hreply.
  rewrite (verify_found settings requests db tx_ref payment Hget), Hreply.
  simpl. rewrite Hs. apply String.eqb_neq in Hne. rewrite Hne.
  eexists. split; [reflexivity |].
  split; [apply (save_status db tx_ref payment "failed" Hget) |].
  split; reflexivity.
Qed.

Lemma verify_reported_failure_witness :
  exists db',
    Payments.VerifyPaymentView_get Scenario.P.settings Scenario.P.declining
      (Scenario.P.db "pending") "travel-abc"
    = (Payments.Returns Payments.PaymentFailed, db')
    /\ Payments.queue db' = [].
Proof.
  destruct (verify_reported_failure Scenario.P.settings Scenario.P.declining
              (Scenario.P.db "pending") "travel-abc"
              (Scenario.P.payment "pending") "failed" eq_refl)
    as (db' & Hv & _ & Hq & _).
  - exists (Payments.mkJson (Some "failed") None). now split.
  - discriminate.
  - exists db'. split; [exact Hv | exact Hq].
Defined.

(** X18.  Verify touches only the payment it is asked about.  Whatever the
    gateway answers: the bookings are as they were, no payment is added or
    removed and the keys are the same, the queue is as it was or longer by
    one task, and the database is as it was unless the answer is completed
    or failed, in particular when the view raises.  On distinct keys every
    payment under another transaction reference is as it was. *)
Theorem verify_touches_only_its_payment :
  forall (settings : Payments.Settings) (requests : Payments.Requests)
         (db : Payments.Database) (tx_ref : string),
    let outcome := fst (Payments.VerifyPaymentView_get settings requests db
                          tx_ref) in
    let db' := snd (Payments.VerifyPaymentView_get settings requests db
                      tx_ref) in
    Payments.Booking_objects db' = Payments.Booking_objects db
    /\ map Payments.p_id (Payments.Payment_objects db')
       = map Payments.p_id (Payments.Payment_objects db)
    /\ (Payments.queue db' = Payments.queue db
        \/ exists task, Payments.queue db'
                        = (Payments.queue db ++ [task])%list)
    /\ (db' = db
        \/ outcome = Payments.Returns Payments.PaymentCompleted
        \/ outcome = Payments.Returns Payments.PaymentFailed)
    /\ (Payments.unique_ids db ->
        forall row,
          Payments.p_transaction_id row <> tx_ref ->
          (In row (Payments.Payment_objects db')
           <-> In row (Payments.Payment_objects db))).
Proof.
  intros settings requests db tx_ref outcome db'. subst outcome db'.
  destruct (Payments.Payment_objects_get db tx_ref) as [payment| |] eqn:Hget;
    try (unfold Payments.VerifyPaymentView_get; rewrite Hget; simpl;
         repeat split; auto; tauto).
  rewrite (verify_found settings requests db tx_ref payment Hget).
  destruct (Payments.get requests _ _) as [status_code json|]; simpl;
    [| repeat split; auto; tauto].
  destruct (status_code =? 200); simpl; [| repeat split; auto; tauto].
  destruct (Payments.j_status json) as [s|]; simpl;
    [| repeat split; auto; tauto].
  destruct (String.eqb s "success"); simpl.
  - split; [reflexivity |]. split; [apply save_ids |].
    split; [right; eexists; reflexivity |].
    split; [right; now left |].
    intros Hids row Hne.
    exact (save_other_references db tx_ref payment "completed" row Hget
             Hids Hne).
  - split; [reflexivity |]. split; [apply save_ids |].
    split; [now left |].
    split; [right; now right |].
    intros Hids row Hne.
    exact (save_other_references db tx_ref payment "failed" row Hget
             Hids Hne).
Qed.

(** The pending payment is verified beside another user's completed one,
    which stays as it is. *)
Lemma verify_touches_only_its_payment_witness :
  In Cases.P.other_payment
     (Payments.Payment_objects
        (snd (Payments.VerifyPaymentView_get Scenario.P.settings
                Scenario.P.declining Cases.P.two_payments "travel-abc"))).
Proof.
  destruct (verify_touches_only_its_payment Scenario.P.settings
              Scenario.P.declining Cases.P.two_payments "travel-abc")
    as (_ & _ & _ & _ & Hothers).
  apply Hothers.
  - repeat constructor; simpl; intuition discriminate.
  - discriminate.
  - simpl. tauto.
Defined.

(** X19.  Initiate never rewrites what is stored: the bookings and the
    queue are as they were, and the payments are the payments before,
    followed by at most one new row, which is pending and refers to the
    booking asked for. *)
Theorem initiate_only_appends :
  forall (settings : Payments.Settings) (requests : Payments.Requests)
         (db : Payments.Database) (user : Payments.User) (booking_id : Z)
         (uuid_hex : string),
    let db' := snd (Payments.InitiatePaymentView_post settings requests db
                      user booking_id uuid_hex) in
    Payments.Booking_objects db' = Payments.Booking_objects db
    /\ Payments.queue db' = Payments.queue db
    /\ (Payments.Payment_objects db' = Payments.Payment_objects db
        \/ exists row,
             Payments.Payment_objects db'
             = (Payments.Payment_objects db ++ [row])%list
             /\ Payments.p_status row = "pending"
             /\ (exists booking,
                    In booking (Payments.Booking_objects db)
                    /\ Payments.b_id booking = booking_id
                    /\ Payments.b_user booking = Payments.u_id user
                    /\ Payments.p_booking row = booking_id
                    /\ Payments.p_amount row
                       = Payments.b_total_price booking)).
Proof.
  intros settings requests db user booking_id uuid_hex db'. subst db'.
  unfold Payments.InitiatePaymentView_post.
  destruct (Payments.Booking_objects_get db booking_id user)
    as [booking| |] eqn:Hget; simpl; auto.
  destruct (Payments.has_payment db booking); simpl; auto.
  destruct (Payments.post requests _ _ _) as [status_code json|]; simpl;
    auto.
  destruct (status_code =? 200); simpl; auto.
  unfold Payments.Booking_objects_get in Hget.
  destruct (objects_get_Found_In _ _ _ Hget) as [Hin Hk].
  apply andb_true_iff in Hk. destruct Hk as [Hid Huser].
  apply Z.eqb_eq in Hid. apply Z.eqb_eq in Huser.
  destruct (Payments.j_data_checkout_url json); simpl;
    (split; [reflexivity |]; split; [reflexivity |]; right;
     eexists; split; [reflexivity |]; split; [reflexivity |];
     exists booking; repeat split; assumption).
Qed.

(** X20.  Initiate and verify compose.  After a successful initiate under
    a fresh transaction reference, a verify of that reference for which
    the gateway reports success answers completed, stores the new payment
    as completed and adds to the queue one confirmation, for the booking
    that was paid. *)
Theorem initiate_then_verify :
  forall (settings : Payments.Settings) (requests : Payments.Requests)
         (db : Payments.Database) (user : Payments.User) (booking_id : Z)
         (uuid_hex : string) (booking : Payments.Booking)
         (json : Payments.Json),
    Payments.Booking_objects_get db booking_id user = Orm.Found booking ->
    Payments.has_payment db booking = false ->
    Payments.initialize_reply settings requests user booking_id booking
      uuid_hex
    = Payments.HttpResponse 200 json ->
    (forall p, In p (Payments.Payment_objects db) ->
               Payments.p_transaction_id p <> ("travel-" ++ uuid_hex)%string) ->
    Payments.reports
      (Payments.verify_reply settings requests ("travel-" ++ uuid_hex)%string)
      "success" ->
    let db1 := snd (Payments.InitiatePaymentView_post settings requests db
                      user booking_id uuid_hex) in
    exists db2,
      Payments.VerifyPaymentView_get settings requests db1
        ("travel-" ++ uuid_hex)%string
      = (Payments.Returns Payments.PaymentCompleted, db2)
      /\ In (Payments.set_status (Payments.created db booking uuid_hex)
               "completed")
            (Payments.Payment_objects db2)
      /\ Payments.queue db2
         = (Payments.queue db
            ++ [Payments.send_booking_confirmation booking_id])%list.
Proof.
  intros settings requests db user booking_id uuid_hex booking json
         Hget Hhas Hreply Hfresh [vjson [Hvreply Hs]] db1.
  subst db1.
  rewrite (initiate_on_200 settings requests db user booking_id uuid_hex
             booking json Hget Hhas Hreply).
  cbn [snd].
  pose proof (get_after_created db (Payments.created db booking uuid_hex)
                Hfresh) as Hfound.
  change (Payments.p_transaction_id (Payments.created db booking uuid_hex))
    with ("travel-" ++ uuid_hex)%string in Hfound.
  unfold Payments.verify_reply in Hvreply.
  rewrite (verify_found settings requests _ _ _ Hfound), Hvreply.
  rewrite Z.eqb_refl, Hs, String.eqb_refl.
  eexists. split; [reflexivity |].
  split.
  - apply (save_status _ _ _ "completed" Hfound).
  - simpl. unfold Payments.Booking_objects_get in Hget.
    destruct (objects_get_Found_In _ _ _ Hget) as [_ Hk].
    apply andb_true_iff in Hk. destruct Hk as [Hid _].
    apply Z.eqb_eq in Hid. now rewrite Hid.
Qed.

(** The payer pays booking 1 through a settling gateway: one confirmation
    for booking 1 is queued. *)
Lemma initiate_then_verify_witness :
  exists db2,
    Payments.VerifyPaymentView_get Scenario.P.settings Scenario.P.settling
      (snd (Payments.InitiatePaymentView_post Scenario.P.settings
              Scenario.P.settling Scenario.P.unpaid_db Scenario.P.payer 1
              "abc"))
      "travel-abc"
    = (Payments.Returns Payments.PaymentCompleted, db2)
    /\ Payments.queue db2 = [Payments.send_booking_confirmation 1].
Proof.
  destruct (initiate_then_verify Scenario.P.settings Scenario.P.settling
              Scenario.P.unpaid_db Scenario.P.payer 1 "abc"
              Scenario.P.booking
              (Payments.mkJson (Some "success") (Some "https://checkout"))
              eq_refl eq_refl eq_refl)
    as (db2 & Hv & _ & Hq).
  - intros p [].
  - exists (Payments.mkJson (Some "success") None). now split.
  - exists db2. split; [exact Hv | exact Hq].
Defined.

(** ** The confirmation task
       (alx_travel_app/alx_travel_app/listings/tasks.py) *)

(** X21.  The confirmation email is tried at most four times: the worker
    ends after [n] runs, between 1 and 4, of which all but the last failed
    to send; it ends with the message Email sent successfully to the
    address when the last run sent, and with the failure only after four
    runs that all failed.  A reminder is tried once: its run ends with
    the message Reminder email sent successfully to the address or with
    the failure, and never asks for a retry, whatever the countdown or
    the number of retries. *)
Theorem confirmation_email_is_tried_at_most_four_times :
  forall (fuel : nat) (deliveries : Z -> bool) (user_email : string),
    (4 <= fuel)%nat ->
    (exists run n,
        Tasks.work fuel deliveries 0 user_email = Some (run, n)
        /\ 1 <= n <= 4
        /\ (forall k, 0 <= k < n - 1 -> deliveries k = false)
        /\ ((run = Tasks.Done
                     ("Email sent successfully to " ++ user_email)%string
             /\ deliveries (n - 1) = true)
            \/ (run = Tasks.Failed /\ n = 4 /\ deliveries 3 = false)))
    /\ (forall sent,
           (forall countdown max_retries,
               Tasks.send_booking_reminder_email sent user_email
               <> Tasks.Retry countdown max_retries)
           /\ Tasks.send_booking_reminder_email sent user_email
              = if sent
                then Tasks.Done
                       ("Reminder email sent successfully to "
                        ++ user_email)%string
                else Tasks.Failed).
Proof.
  intros fuel deliveries user_email Hfuel. split.
  - do 4 (destruct fuel as [|fuel]; [lia |]). clear Hfuel.
    unfold Tasks.work, Tasks.send_booking_confirmation_email. simpl.
    destruct (deliveries 0) eqn:H0.
    { eexists; exists 1. split; [reflexivity |].
      split; [lia |]. split; [intros k Hk; lia |]. left. now split. }
    destruct (deliveries 1) eqn:H1.
    { eexists; exists 2. split; [reflexivity |].
      split; [lia |].
      split; [intros k Hk; assert (k = 0) by lia; now subst |].
      left. now split. }
    destruct (deliveries 2) eqn:H2.
    { eexists; exists 3. split; [reflexivity |].
      split; [lia |].
      split; [intros k Hk; assert (Hc : k = 0 \/ k = 1) by lia;
              destruct Hc; now subst |].
      left. now split. }
    destruct (deliveries 3) eqn:H3.
    { eexists; exists 4. split; [reflexivity |].
      split; [lia |].
      split; [intros k Hk; assert (Hc : k = 0 \/ k = 1 \/ k = 2) by lia;
              destruct Hc as [Hc | [Hc | Hc]]; now subst |].
      left. now split. }
    eexists; exists 4. split; [reflexivity |].
    split; [lia |].
    split; [intros k Hk; assert (Hc : k = 0 \/ k = 1 \/ k = 2) by lia;
            destruct Hc as [Hc | [Hc | Hc]]; now subst |].
    right. now split.
  - intro sent. unfold Tasks.send_booking_reminder_email.
    destruct sent; (split; [discriminate | reflexivity]).
Qed.

(** A mail server that is down for the first two runs: the third run
    sends. *)
Lemma confirmation_email_is_tried_at_most_four_times_witness :
  Tasks.work 4 (fun k => 2 <=? k) 0 "a@example.com"
  = Some (Tasks.Done "Email sent successfully to a@example.com", 3).
Proof.
  destruct (proj1 (confirmation_email_is_tried_at_most_four_times 4
                     (fun k => 2 <=? k) "a@example.com" (le_n 4)))
    as (run & n & Hw & _).
  rewrite Hw. vm_compute in Hw. exact (eq_sym Hw).
Defined.

(** ** More on the booking serializer and the cancel action *)

(** X22.  The date errors come first and are exact.  With both dates
    given, [validate] fails with the date-range error exactly when the
    start is not before the end, and with the 365-day error exactly when
    the dates are in order and more than 365 days apart, whatever the
    listing and the bookings are: a span of 365 days passes this check and
    366 days do not. *)
Theorem validate_date_errors :
  forall (db : Serializers.Database) (instance : option Serializers.Booking)
         (data : Serializers.Attrs) (s e : Z),
    Serializers.start_date data = Some s ->
    Serializers.end_date data = Some e ->
    (Serializers.validate db instance data
     = Serializers.ValidationError Serializers.InvalidDateRange
     <-> s >= e)
    /\ (Serializers.validate db instance data
        = Serializers.ValidationError Serializers.RangeTooLong
        <-> s < e /\ e - s > 365).
Proof.
  intros db instance data s e Hs He.
  rewrite validate_cases. unfold Serializers.validate_date_range.
  rewrite Hs, He.
  destruct (Z.geb_spec s e) as [Hge | Hlt].
  - split; split; intro H; try reflexivity; try lia; discriminate H.
  - destruct (Z.gtb_spec (e - s) 365) as [Hlong | Hshort].
    + split; split; intro H; try reflexivity; try lia; discriminate H.
    + assert (Hother : forall message,
                 message = Serializers.InvalidDateRange
                 \/ message = Serializers.RangeTooLong ->
                 match Serializers.listing_id data with
                 | Some lid =>
                     if lid =? 0 then Serializers.Valid data
                     else
                       match Orm.objects_get
                               (fun l => Serializers.l_id l =? lid)
                               (Serializers.Listing_objects db) with
                       | Orm.Found listing =>
                           if negb (Serializers.l_availability listing)
                           then Serializers.ValidationError
                                  Serializers.ListingUnavailable
                           else if Orm.exists_
                                     (Serializers.conflicting_bookings db
                                        instance listing s e)
                                then Serializers.ValidationError
                                       Serializers.DateConflict
                                else Serializers.Valid data
                       | Orm.DoesNotExist =>
                           Serializers.ValidationError
                             Serializers.InvalidListing
                       | Orm.MultipleObjectsReturned =>
                           Serializers.Uncaught
                             "Listing.MultipleObjectsReturned"
                       end
                 | None => Serializers.Valid data
                 end
                 <> Serializers.ValidationError message).
      { intros message Hm.
        destruct (Serializers.listing_id data) as [lid|]; [| discriminate].
        destruct (lid =? 0); [discriminate |].
        destruct (Orm.objects_get _ _) as [listing| |];
          [| destruct Hm; subst; discriminate | discriminate].
        destruct (negb (Serializers.l_availability listing));
          [destruct Hm; subst; discriminate |].
        destruct (Orm.exists_ _);
          [destruct Hm; subst; discriminate | discriminate]. }
      split; split; intro H; try lia; exfalso;
        eapply Hother; try exact H; auto.
Qed.

(** A stay of 365 nights passes the date check and one of 366 does not. *)
Lemma validate_date_errors_witness :
  Serializers.validate Scenario.S.open_db None
    (Serializers.mkAttrs (Some Scenario.june_5)
       (Some (Scenario.june_5 + 366)) (Some 1))
  = Serializers.ValidationError Serializers.RangeTooLong
  /\ Serializers.validate Scenario.S.open_db None
       (Serializers.mkAttrs (Some Scenario.june_5)
          (Some (Scenario.june_5 + 365)) (Some 1))
     <> Serializers.ValidationError Serializers.RangeTooLong.
Proof.
  split.
  - apply (proj2 (validate_date_errors Scenario.S.open_db None
                    (Serializers.mkAttrs (Some Scenario.june_5)
                       (Some (Scenario.june_5 + 366)) (Some 1))
                    Scenario.june_5 (Scenario.june_5 + 366)
                    eq_refl eq_refl)).
    unfold Scenario.june_5. lia.
  - intro H.
    apply (proj2 (validate_date_errors Scenario.S.open_db None
                    (Serializers.mkAttrs (Some Scenario.june_5)
                       (Some (Scenario.june_5 + 365)) (Some 1))
                    Scenario.june_5 (Scenario.june_5 + 365)
                    eq_refl eq_refl)) in H.
    unfold Scenario.june_5 in H. lia.
Defined.

(** X23.  [cancel] answers 200 only to the guest of the booking or the host
    of its listing, with the booking as cancelled; every other answer is
    the 404 or the 403 refusal and leaves the table as it was. *)
Theorem cancel_only_by_guest_or_host :
  forall (user : Models.User) (rows rows' : list Models.Booking) (pk : Z)
         (response : Views.Response),
    Views.cancel user rows pk = (Some response, rows') ->
    (exists booking,
        In booking rows /\ Models.b_id booking = pk
        /\ (Models.u_id (Models.b_guest booking) = Models.u_id user
            \/ Models.u_id (Models.l_host (Models.b_listing booking))
               = Models.u_id user)
        /\ response
           = Views.mkResponse
               (Views.Data (Models.set_status booking "cancelled")) 200
        /\ rows' = Models.save (Models.set_status booking "cancelled") rows)
    \/ (rows' = rows
        /\ (response = Views.NotFound \/ response = Views.Forbidden_cancel)).
Proof.
  intros user rows rows' pk response. unfold Views.cancel.
  destruct (Views.get_object user rows pk) as [booking| |] eqn:Hget.
  - unfold Views.get_object in Hget.
    destruct (objects_get_Found_In _ _ _ Hget) as [Hin Hk].
    apply In_get_queryset in Hin. apply Z.eqb_eq in Hk.
    unfold Models.user_ne.
    destruct (Z.eqb_spec (Models.u_id (Models.b_guest booking))
                (Models.u_id user)) as [Hguest | Hnot_guest];
      destruct (Z.eqb_spec
                  (Models.u_id (Models.l_host (Models.b_listing booking)))
                  (Models.u_id user)) as [Hhost | Hnot_host]; simpl;
      intro H; inversion H; subst;
      try (left; exists booking; repeat split; tauto).
    right. split; [reflexivity | now right].
  - intro H. inversion H; subst. right. split; [reflexivity | now left].
  - discriminate.
Qed.

(** The guest cancels the stay: the answer is the first case. *)
Lemma cancel_only_by_guest_or_host_witness :
  exists booking,
    Models.b_id booking = 5
    /\ (Models.u_id (Models.b_guest booking) = Models.u_id Scenario.M.guest
        \/ Models.u_id (Models.l_host (Models.b_listing booking))
           = Models.u_id Scenario.M.guest).
Proof.
  destruct (cancel_only_by_guest_or_host Scenario.M.guest
              [Scenario.M.cancelled_stay] [Scenario.M.cancelled_stay] 5
              (Views.mkResponse (Views.Data Scenario.M.cancelled_stay) 200)
              eq_refl)
    as [[booking (_ & Hid & Hwho & _)] | [_ [H | H]]].
  - exists booking. now split.
  - discriminate H.
  - discriminate H.
Defined.

(** X24.  With a booking at hand, the status serializer lets through
    exactly three requests: confirmed or canceled for a pending booking,
    canceled for a confirmed one.  Every other request, from any other
    status too, is refused with the message that names both statuses.
    Without a booking every status is let through. *)
Theorem status_serializer_edges :
  forall (current value : string),
    (Serializers.validate_status (Some current) value
     = Serializers.Valid value
     <-> (current = "pending" /\ (value = "confirmed" \/ value = "canceled"))
         \/ (current = "confirmed" /\ value = "canceled"))
    /\ (Serializers.validate_status (Some current) value
        = Serializers.Valid value
        \/ Serializers.validate_status (Some current) value
           = Serializers.ValidationError
               ("Cannot change status from " ++ current ++ " to " ++ value
                ++ ".")%string)
    /\ Serializers.validate_status None value = Serializers.Valid value.
Proof.
  intros current value. split; [apply validate_status_table |].
  split; [| reflexivity].
  unfold Serializers.validate_status.
  destruct (negb _); [now right | now left].
Qed.
